(** * RFC3339 date helpers of [src/services/pocketBase/pocketBase.ts]

    A shallow embedding of [dateToRFC3339Parts], [dateToRFC3339],
    [rfc3339ToDate] and [assertRFC3339Date], together with the part of the
    ECMAScript [Date] object those functions call ([getTime], [toISOString]
    and the [Date] constructor on a string).

    Conventions.
    - A JavaScript string is a [string]. The only string primitives the
      source uses are [indexOf], [split] and [join] with the one-character
      arguments [" "] and ["T"], and truthiness (non-emptiness); on these
      a string of bytes and a string of UTF-16 code units behave alike.
    - A time value is [NaN] or an integral number of milliseconds since the
      epoch ([Ms t]); a [Date] holds one time value.
    - An [Effect] is modelled by what running it yields: a success value, a
      typed failure, or a defect (a thrown JavaScript exception).
    - [Date.prototype.toISOString] and the calendar follow ECMA-262 (Date
      Objects: Day Number and Time within Day, Year Number, Month Number,
      Date Number, MakeTime, MakeDay, MakeDate, TimeClip, Date Time String
      Format, Expanded Years).
    - [Date.parse] is fixed by the language on strings of the Date Time
      String Format and left to the engine elsewhere.  The model fixes it
      on the complete UTC form [YYYY-MM-DDTHH:mm:ss.sssZ] (the form that
      [toISOString] prints); on every other string the result is that of
      an arbitrary function [fallback], over which all statements are
      quantified. *)

From Stdlib Require Import ZArith List String Ascii Bool Lia.
Import ListNotations.

Local Open Scope string_scope.
Local Open Scope Z_scope.

(* ================================================================== *)
(** * Part I: the model *)
(* ================================================================== *)

(** ** JavaScript string primitives *)

Module JsString.

(** [s.indexOf(c)] for a one-character [c]: the index of the first
    occurrence, [-1] when there is none. *)
Fixpoint indexOf (c : ascii) (s : string) : Z :=
  match s with
  | EmptyString => -1
  | String a r =>
      if Ascii.eqb a c then 0
      else let i := indexOf c r in if i =? -1 then -1 else i + 1
  end.

(** [s.split(c)] for a one-character separator: the maximal segments
    between occurrences of [c]; never the empty array. *)
Fixpoint split (sep : ascii) (s : string) : list string :=
  match s with
  | EmptyString => [EmptyString]
  | String a r =>
      if Ascii.eqb a sep then EmptyString :: split sep r
      else match split sep r with
           | seg :: segs => String a seg :: segs
           | [] => [String a EmptyString]
           end
  end.

(** [parts.join(sep)]. *)
Definition join (sep : string) (parts : list string) : string :=
  String.concat sep parts.

(** Truthiness of a string: every string but the empty one. *)
Definition truthy (s : string) : bool :=
  match s with EmptyString => false | String _ _ => true end.

(** Number of occurrences of a character. *)
Fixpoint count (c : ascii) (s : string) : nat :=
  match s with
  | EmptyString => O
  | String a r => if Ascii.eqb a c then S (count c r) else count c r
  end.

(** The double-quote character, as a string. *)
Definition dquote : string := String (ascii_of_nat 34) EmptyString.

End JsString.

(** ** Errors and effects *)

(** The string literal types used as discriminants of [Error<T>]. *)
Inductive ErrorType : Type :=
  | dateInvalid
  | dateInvalidFormat
  | deleteRecord
  | createRecord
  | getFullRecordList.

(** [Error<T>]: [{ type: T; message: string }]. *)
Record Error : Type := mkError { type : ErrorType; message : string }.

Module Effect.

(** The result of running an [Effect.Effect<A, Error>] of this file:
    [succeed a], [fail e], or a defect carrying the message of the thrown
    [Error]. *)
Inductive t (A : Type) : Type :=
  | succeed (a : A)
  | fail (e : Error)
  | die (defect : string).
Arguments succeed {A} a.
Arguments fail {A} e.
Arguments die {A} defect.

Definition map {A B : Type} (f : A -> B) (e : t A) : t B :=
  match e with
  | succeed a => succeed (f a)
  | fail err => fail err
  | die m => die m
  end.

Definition flatMap {A B : Type} (f : A -> t B) (e : t A) : t B :=
  match e with
  | succeed a => f a
  | fail err => fail err
  | die m => die m
  end.

End Effect.

(** ** Time values and dates *)

Inductive TimeValue : Type :=
  | NaN
  | Ms (t : Z).

Definition isNaN (v : TimeValue) : bool :=
  match v with NaN => true | Ms _ => false end.

Record Date : Type := mkDate { getTime : TimeValue }.

(** The largest magnitude of a time value (ECMA-262, Time Values and Time
    Range): 8.64e15 ms, i.e. 100,000,000 days either side of the epoch. *)
Definition maxTime : Z := 8640000000000000.

(** Every [Date] a program can hold has a time value that is [NaN] or lies
    in the time range. *)
Definition wf_date (d : Date) : Prop :=
  match getTime d with
  | NaN => True
  | Ms t => - maxTime <= t <= maxTime
  end.

(** A valid date: its time value is not [NaN]. *)
Definition valid_date (d : Date) : Prop :=
  wf_date d /\ isNaN (getTime d) = false.

(** ** The ECMAScript date algorithms (ECMA-262, section Date Objects)

    [Date] is a platform object, not code of the repository; the
    definitions below follow the abstract operations of the language
    specification, which fix what [toISOString] prints and what the [Date]
    constructor reads back from such a string. *)

Module Ecma.

Definition msPerSecond : Z := 1000.
Definition msPerMinute : Z := 60000.
Definition msPerHour : Z := 3600000.
Definition msPerDay : Z := 86400000.

Definition Day (t : Z) : Z := t / msPerDay.
Definition TimeWithinDay (t : Z) : Z := t mod msPerDay.

Definition DaysInYear (y : Z) : Z :=
  if negb (y mod 4 =? 0) then 365
  else if negb (y mod 100 =? 0) then 366
  else if negb (y mod 400 =? 0) then 365
  else 366.

Definition DayFromYear (y : Z) : Z :=
  365 * (y - 1970) + (y - 1969) / 4 - (y - 1901) / 100 + (y - 1601) / 400.

Definition TimeFromYear (y : Z) : Z := msPerDay * DayFromYear y.

(** "The largest integer [y] such that [TimeFromYear y <= t]", computed
    from an estimate that is off by at most one
    (see [YearFromTime_spec]). *)
Definition YearFromTime (t : Z) : Z :=
  let y := 1970 + (400 * Day t) / 146097 in
  if TimeFromYear (y + 1) <=? t then y + 1
  else if TimeFromYear y <=? t then y
  else y - 1.

Definition InLeapYear (t : Z) : Z :=
  if DaysInYear (YearFromTime t) =? 366 then 1 else 0.

Definition DayWithinYear (t : Z) : Z := Day t - DayFromYear (YearFromTime t).

(** Month number, [0] (January) to [11] (December). *)
Definition MonthFromTime (t : Z) : Z :=
  let d := DayWithinYear t in
  let l := InLeapYear t in
  if d <? 31 then 0
  else if d <? 59 + l then 1
  else if d <? 90 + l then 2
  else if d <? 120 + l then 3
  else if d <? 151 + l then 4
  else if d <? 181 + l then 5
  else if d <? 212 + l then 6
  else if d <? 243 + l then 7
  else if d <? 273 + l then 8
  else if d <? 304 + l then 9
  else if d <? 334 + l then 10
  else 11.

(** Day of the month, from [1]. *)
Definition DateFromTime (t : Z) : Z :=
  let d := DayWithinYear t in
  let l := InLeapYear t in
  match MonthFromTime t with
  | 0 => d + 1
  | 1 => d - 30
  | 2 => d - 58 - l
  | 3 => d - 89 - l
  | 4 => d - 119 - l
  | 5 => d - 150 - l
  | 6 => d - 180 - l
  | 7 => d - 211 - l
  | 8 => d - 242 - l
  | 9 => d - 272 - l
  | 10 => d - 303 - l
  | _ => d - 333 - l
  end.

Definition HourFromTime (t : Z) : Z := (t / msPerHour) mod 24.
Definition MinFromTime (t : Z) : Z := (t / msPerMinute) mod 60.
Definition SecFromTime (t : Z) : Z := (t / msPerSecond) mod 60.
Definition msFromTime (t : Z) : Z := t mod msPerSecond.

Definition MakeTime (hour min sec ms : Z) : Z :=
  hour * msPerHour + min * msPerMinute + sec * msPerSecond + ms.

(** Days of the year before the first of month [m] ([0..11]); [l] is [1]
    in a leap year. *)
Definition daysBeforeMonth (m l : Z) : Z :=
  match m with
  | 0 => 0
  | 1 => 31
  | 2 => 59 + l
  | 3 => 90 + l
  | 4 => 120 + l
  | 5 => 151 + l
  | 6 => 181 + l
  | 7 => 212 + l
  | 8 => 243 + l
  | 9 => 273 + l
  | 10 => 304 + l
  | _ => 334 + l
  end.

Definition daysInMonth (m l : Z) : Z :=
  match m with
  | 1 => 28 + l
  | 3 | 5 | 8 | 10 => 30
  | _ => 31
  end.

Definition leapOfYear (y : Z) : Z := if DaysInYear y =? 366 then 1 else 0.

(** [MakeDay year month date]: the day number of the first of the month
    [month mod 12] of year [year + month / 12], plus [date - 1]. *)
Definition MakeDay (year month date : Z) : Z :=
  let ym := year + month / 12 in
  let mn := month mod 12 in
  DayFromYear ym + daysBeforeMonth mn (leapOfYear ym) + date - 1.

Definition MakeDate (day time : Z) : Z := day * msPerDay + time.

Definition TimeClip (v : TimeValue) : TimeValue :=
  match v with
  | NaN => NaN
  | Ms t => if maxTime <? Z.abs t then NaN else Ms t
  end.

(** *** Decimal fields *)

Definition digitChar (d : Z) : ascii := ascii_of_nat (48 + Z.to_nat d).

(** [n] as exactly [w] decimal digits, most significant first. *)
Fixpoint pad (w : nat) (n : Z) : string :=
  match w with
  | O => EmptyString
  | S w' => String (digitChar ((n / 10 ^ Z.of_nat w') mod 10)) (pad w' n)
  end.

(** The year of the Date Time String Format: four digits for years
    [0..9999], otherwise a sign and six digits (an expanded year). *)
Definition yearString (y : Z) : string :=
  if (0 <=? y) && (y <=? 9999) then pad 4 y
  else if y <? 0 then String "-" (pad 6 (- y))
  else String "+" (pad 6 y).

Definition datePart (t : Z) : string :=
  yearString (YearFromTime t) ++ "-" ++ pad 2 (MonthFromTime t + 1)
    ++ "-" ++ pad 2 (DateFromTime t).

Definition timePart (t : Z) : string :=
  pad 2 (HourFromTime t) ++ ":" ++ pad 2 (MinFromTime t) ++ ":"
    ++ pad 2 (SecFromTime t) ++ "." ++ pad 3 (msFromTime t) ++ "Z".

(** [Date.prototype.toISOString] on a date whose time value is [t]:
    [YYYY-MM-DDTHH:mm:ss.sssZ] on the UTC time scale, with an expanded
    year outside [0..9999]. *)
Definition toISOString (t : Z) : string :=
  datePart t ++ "T" ++ timePart t.

(** *** Reading the complete UTC form back *)

Definition digitValue (c : ascii) : option Z :=
  let n := Z.of_nat (nat_of_ascii c) in
  if (48 <=? n) && (n <=? 57) then Some (n - 48) else None.

(** Reads exactly [w] decimal digits. *)
Fixpoint digits (w : nat) (acc : Z) (s : string) : option (Z * string) :=
  match w with
  | O => Some (acc, s)
  | S w' =>
      match s with
      | EmptyString => None
      | String c r =>
          match digitValue c with
          | Some d => digits w' (10 * acc + d) r
          | None => None
          end
      end
  end.

Definition expect (c : ascii) (s : string) : option (unit * string) :=
  match s with
  | String a r => if Ascii.eqb a c then Some (tt, r) else None
  | EmptyString => None
  end.

(** A year: [YYYY], or [+YYYYYY], or [-YYYYYY] other than [-000000]. *)
Definition year (s : string) : option (Z * string) :=
  match s with
  | String "+" r => digits 6 0 r
  | String "-" r =>
      match digits 6 0 r with
      | Some (y, r') => if y =? 0 then None else Some (- y, r')
      | None => None
      end
  | _ => digits 4 0 s
  end.

Notation "' p <- e ;; k" :=
  (match e with Some p => k | None => None end)
  (at level 61, p pattern, e at next level, right associativity,
   only parsing).

(** The complete form [YYYY-MM-DDTHH:mm:ss.sssZ] (also with an expanded
    year) whose fields are in range: month [01..12], day [01..] the
    length of that month, hour [00..23], minute and second [00..59].
    [Some v] is the time value the language specification assigns to the
    string (out of the time range: [NaN]); [None] means the string is
    not of this form, and what the constructor does with it is left to
    the engine. *)
Definition parseDateTime (s : string) : option TimeValue :=
  ' (y, s) <- year s ;;
  ' (_, s) <- expect "-" s ;;
  ' (mo, s) <- digits 2 0 s ;;
  ' (_, s) <- expect "-" s ;;
  ' (d, s) <- digits 2 0 s ;;
  ' (_, s) <- expect "T" s ;;
  ' (h, s) <- digits 2 0 s ;;
  ' (_, s) <- expect ":" s ;;
  ' (mi, s) <- digits 2 0 s ;;
  ' (_, s) <- expect ":" s ;;
  ' (se, s) <- digits 2 0 s ;;
  ' (_, s) <- expect "." s ;;
  ' (ms, s) <- digits 3 0 s ;;
  ' (_, s) <- expect "Z" s ;;
  match s with
  | EmptyString =>
      if (1 <=? mo) && (mo <=? 12) && (1 <=? d)
         && (d <=? daysInMonth (mo - 1) (leapOfYear y))
         && (h <=? 23) && (mi <=? 59) && (se <=? 59)
      then Some (TimeClip (Ms (MakeDate (MakeDay y (mo - 1) d)
                                        (MakeTime h mi se ms))))
      else None
  | String _ _ => None
  end.

(** [Date.parse]: the Date Time String Format first; any other string is
    handed to the engine's own heuristics, [fallback]. *)
Definition parse (fallback : string -> TimeValue) (s : string) : TimeValue :=
  match parseDateTime s with
  | Some v => v
  | None => fallback s
  end.

(** [new Date(s)] for a string [s]. *)
Definition newDate (fallback : string -> TimeValue) (s : string) : Date :=
  mkDate (TimeClip (parse fallback s)).

End Ecma.


(** ** Calls of the [Date] constructor

    [rfc3339ToDate] is modelled in a writer monad that records, in order,
    every string the [Date] constructor is called on, so that what a date
    is constructed from (and whether one is constructed at all) is part of
    the function's result. *)

Module Traced.

Record t (A : Type) : Type := mk { constructed : list string; value : A }.
Arguments mk {A} constructed value.
Arguments constructed {A} _.
Arguments value {A} _.

Definition ret {A : Type} (a : A) : t A := mk [] a.

Definition bind {A B : Type} (m : t A) (k : A -> t B) : t B :=
  let r := k (value m) in
  mk (constructed m ++ constructed r)%list (value r).

(** [new Date(s)], recorded. *)
Definition new_Date (fallback : string -> TimeValue) (s : string) : t Date :=
  mk [s] (Ecma.newDate fallback s).

End Traced.

Notation "x <- m ;; k" := (Traced.bind m (fun x => k))
  (at level 61, m at next level, right associativity).

(** ** The functions of [pocketBase.ts] *)

(** The message of the [Error] thrown by [dateToRFC3339Parts]. *)
Definition separatorMessage : string :=
  "Expected date to ISO string to contain a 'T' or ' ' separator.".

Section Splitter.

(** The serializer [date.toISOString()], applied to the time value of a
    valid date. *)
Variable serialize : Z -> string.

(** [dateToRFC3339Parts], lines 84-110, over the serializer. *)
Definition dateToRFC3339Parts_with (date : Date) : Effect.t (list string) :=
  match getTime date with
  | NaN =>
      Effect.fail {| type := dateInvalid;
                     message := "The provided date is invalid." |}
  | Ms t =>
      let parts := JsString.split "T" (serialize t) in
      let parts :=
        if negb (Nat.eqb (List.length parts) 2)
        then JsString.split " " (serialize t)
        else parts in
      if negb (Nat.eqb (List.length parts) 2)
      then Effect.die separatorMessage
      else Effect.succeed parts
  end.

End Splitter.

(** [dateToRFC3339Parts] on the platform's [toISOString]. *)
Definition dateToRFC3339Parts (date : Date) : Effect.t (list string) :=
  dateToRFC3339Parts_with Ecma.toISOString date.

(** [dateToRFC3339], lines 122-129. *)
Definition dateToRFC3339 (date : Date) : Effect.t string :=
  Effect.map (fun parts => JsString.join " " parts) (dateToRFC3339Parts date).

(** The value of the constant [formattedDate], lines 153-156. *)
Definition formattedDate (dateString : string) : string :=
  if negb (JsString.indexOf " " dateString =? -1)
     && (JsString.indexOf "T" dateString =? -1)
  then JsString.join "T" (JsString.split " " dateString)
  else dateString.

Section Parser.

(** What the engine's [Date.parse] makes of a string that is not in the
    complete UTC form of the Date Time String Format. *)
Variable fallback : string -> TimeValue.

(** [rfc3339ToDate], lines 142-167, with the constructor calls
    recorded. *)
Definition rfc3339ToDate_traced (dateString : string)
  : Traced.t (Effect.t Date) :=
  if negb (JsString.truthy dateString)
  then Traced.ret
         (Effect.fail {| type := dateInvalidFormat;
                         message := "The provided date string is empty." |})
  else
    date <- Traced.new_Date fallback (formattedDate dateString) ;;
    if isNaN (getTime date)
    then Traced.ret
           (Effect.fail
              {| type := dateInvalidFormat;
                 message := "The provided date string " ++ JsString.dquote
                            ++ dateString ++ JsString.dquote
                            ++ " is invalid." |})
    else Traced.ret (Effect.succeed date).

(** [rfc3339ToDate]: the effect it returns. *)
Definition rfc3339ToDate (dateString : string) : Effect.t Date :=
  Traced.value (rfc3339ToDate_traced dateString).

(** [assertRFC3339Date], lines 179-186. *)
Definition assertRFC3339Date (dateString : string) : Effect.t string :=
  Effect.flatMap (fun date => dateToRFC3339 date) (rfc3339ToDate dateString).

End Parser.

(** ** Vocabulary of the specification *)

(** The strings of the shape [YYYY-MM-DD HH:MM:SS.sssZ]. *)
Inductive Pat : Type := Dg | Ch (c : ascii).

Fixpoint matches (p : list Pat) (s : string) : bool :=
  match p, s with
  | [], EmptyString => true
  | Dg :: p', String c r =>
      match Ecma.digitValue c with Some _ => matches p' r | None => false end
  | Ch a :: p', String c r => Ascii.eqb c a && matches p' r
  | _, _ => false
  end.

Definition canonicalPattern : list Pat :=
  [Dg; Dg; Dg; Dg; Ch "-"; Dg; Dg; Ch "-"; Dg; Dg; Ch " ";
   Dg; Dg; Ch ":"; Dg; Dg; Ch ":"; Dg; Dg; Ch "."; Dg; Dg; Dg; Ch "Z"]%char.

Definition canonicalShape (s : string) : bool := matches canonicalPattern s.

(** The shape with an expanded year: a sign and six digits. *)
Definition expandedPattern (sign : ascii) : list Pat :=
  (Ch sign :: Dg :: Dg :: canonicalPattern)%list.

(** [s] with its first occurrence of [a] (if any) replaced by [b]. *)
Fixpoint replaceFirst (a b : ascii) (s : string) : string :=
  match s with
  | EmptyString => EmptyString
  | String c r => if Ascii.eqb c a then String b r
                  else String c (replaceFirst a b r)
  end.

(** [s] with every occurrence of [a] replaced by [b]. *)
Fixpoint replaceAll (a b : ascii) (s : string) : string :=
  match s with
  | EmptyString => EmptyString
  | String c r => String (if Ascii.eqb c a then b else c) (replaceAll a b r)
  end.

Definition contains (c : ascii) (s : string) : Prop := JsString.count c s <> O.

(** The pattern after the year: [-MM-DD HH:MM:SS.sssZ]. *)
Definition tailPattern : list Pat :=
  (Ch "-" :: List.repeat Dg 2 ++ Ch "-" :: List.repeat Dg 2
     ++ Ch " " :: List.repeat Dg 2 ++ Ch ":" :: List.repeat Dg 2
     ++ Ch ":" :: List.repeat Dg 2 ++ Ch "." :: List.repeat Dg 3
     ++ [Ch "Z"])%list%char.

(** The canonical, space-separated string of the instant [t]: the two
    segments of its serialization around one space. *)
Definition canonical (t : Z) : string :=
  (Ecma.datePart t ++ " " ++ Ecma.timePart t)%string.

(** The message of the parser's failure on an unreadable input. *)
Definition invalidMessage (dateString : string) : string :=
  ("The provided date string " ++ JsString.dquote ++ dateString
     ++ JsString.dquote ++ " is invalid.")%string.

(** An engine whose [Date.parse] knows nothing but the complete UTC form
    of the Date Time String Format. *)
Definition strictEngine : string -> TimeValue := fun _ => NaN.


(** ** Vocabulary of the further properties (Part IV) *)

Module Format.
Import Ecma.

(** The text after the year, with [sep] between date and time. *)
Definition afterYear (sep : ascii) (mo d h mi se ms : Z) : string :=
  String "-" (pad 2 mo ++ String "-" (pad 2 d ++ String sep (pad 2 h
    ++ String ":" (pad 2 mi ++ String ":" (pad 2 se
    ++ String "." (pad 3 ms ++ String "Z" EmptyString)))))).

(** The fields of a string the Date Time String Format reader accepts. *)
Record Fields : Type := mkFields {
  f_year : Z; f_month : Z; f_day : Z;
  f_hour : Z; f_min : Z; f_sec : Z; f_ms : Z }.

(** The fields name a month, a day of that month and a time of day. *)
Definition fields_ok (f : Fields) : Prop :=
  1 <= f_month f <= 12
  /\ 1 <= f_day f <= daysInMonth (f_month f - 1) (leapOfYear (f_year f))
  /\ 0 <= f_hour f <= 23 /\ 0 <= f_min f <= 59 /\ 0 <= f_sec f <= 59
  /\ 0 <= f_ms f <= 999.

(** The instant the fields denote. *)
Definition fields_time (f : Fields) : Z :=
  MakeDate (MakeDay (f_year f) (f_month f - 1) (f_day f))
           (MakeTime (f_hour f) (f_min f) (f_sec f) (f_ms f)).

(** The text of the fields after the year. *)
Definition fields_tail (sep : ascii) (f : Fields) : string :=
  afterYear sep (f_month f) (f_day f) (f_hour f) (f_min f) (f_sec f)
    (f_ms f).

(** The month and day, and the time of day, as printed. *)
Definition dateTail (f : Fields) : string :=
  String "-" (pad 2 (f_month f) ++ String "-" (pad 2 (f_day f))).

Definition timeTail (f : Fields) : string :=
  (pad 2 (f_hour f) ++ String ":" (pad 2 (f_min f) ++ String ":"
     (pad 2 (f_sec f) ++ String "." (pad 3 (f_ms f)
     ++ String "Z" EmptyString))))%string.

(** The three forms of a year. *)
Definition year_form (ys : string) (y : Z) : Prop :=
  (0 <= y <= 9999 /\ ys = pad 4 y)
  \/ (0 <= y <= 999999 /\ ys = String "+" (pad 6 y))
  \/ (-999999 <= y < 0 /\ ys = String "-" (pad 6 (- y))).

(** Occurrences of a character among the fixed characters of a
    pattern. *)
Fixpoint countPat (c : ascii) (p : list Pat) : nat :=
  match p with
  | [] => O
  | Dg :: p' => countPat c p'
  | Ch a :: p' => if Ascii.eqb a c then S (countPat c p') else countPat c p'
  end.

(** The first differing pair decides. *)
Fixpoint lexZ (l : list (Z * Z)) : comparison :=
  match l with
  | [] => Eq
  | (a, b) :: l' => match a ?= b with Eq => lexZ l' | c => c end
  end.

(** The fields of an instant, most significant first. *)
Definition fieldPairs (t1 t2 : Z) : list (Z * Z) :=
  [(YearFromTime t1, YearFromTime t2);
   (MonthFromTime t1 + 1, MonthFromTime t2 + 1);
   (DateFromTime t1, DateFromTime t2);
   (HourFromTime t1, HourFromTime t2);
   (MinFromTime t1, MinFromTime t2);
   (SecFromTime t1, SecFromTime t2);
   (msFromTime t1, msFromTime t2)].

End Format.


(* ================================================================== *)
(** * Part II: properties *)
(* ================================================================== *)

(** ** The examples of the documentation *)

Example toISOString_epoch : Ecma.toISOString 0 = "1970-01-01T00:00:00.000Z".
Proof. vm_compute. reflexivity. Qed.

Example dateToRFC3339_example :
  dateToRFC3339 (mkDate (Ms 1743165045000))
  = Effect.succeed "2025-03-28 12:30:45.000Z".
Proof. vm_compute. reflexivity. Qed.

Example rfc3339ToDate_space_example :
  rfc3339ToDate strictEngine "2025-03-28 12:30:45.000Z"
  = Effect.succeed (mkDate (Ms 1743165045000)).
Proof. vm_compute. reflexivity. Qed.

Example rfc3339ToDate_T_example :
  rfc3339ToDate strictEngine "2025-03-28T12:30:45.000Z"
  = Effect.succeed (mkDate (Ms 1743165045000)).
Proof. vm_compute. reflexivity. Qed.

Example assertRFC3339Date_example :
  assertRFC3339Date strictEngine "2025-03-28T12:30:45.000Z"
  = Effect.succeed "2025-03-28 12:30:45.000Z".
Proof. vm_compute. reflexivity. Qed.

(** A string of the complete form whose instant lies past the time range
    is an invalid date on every engine. *)
Example rfc3339ToDate_out_of_range (fallback : string -> TimeValue) :
  rfc3339ToDate fallback "+275760-09-13T00:00:00.001Z"
  = Effect.fail {| type := dateInvalidFormat;
                   message := invalidMessage "+275760-09-13T00:00:00.001Z" |}.
Proof. vm_compute. reflexivity. Qed.

(** ** The calendar *)

Module EcmaFacts.
Import Ecma.

Lemma TimeFromYear_le (y t : Z) :
  TimeFromYear y <= t <-> DayFromYear y <= Day t.
Proof.
  unfold TimeFromYear, Day, msPerDay.
  generalize (DayFromYear y); intros D.
  Z.div_mod_to_equations. lia.
Qed.

(** The year of [t] is the one whose days contain the day of [t]. *)
Lemma YearFromTime_spec (t : Z) :
  DayFromYear (YearFromTime t) <= Day t < DayFromYear (YearFromTime t + 1).
Proof.
  unfold YearFromTime.
  set (d := Day t).
  set (y := 1970 + 400 * d / 146097).
  assert (Hy : DayFromYear (y - 1) <= d < DayFromYear (y + 2)).
  { subst y. unfold DayFromYear. Z.div_mod_to_equations. lia. }
  destruct (Z.leb_spec (TimeFromYear (y + 1)) t) as [H1 | H1].
  - apply TimeFromYear_le in H1. fold d in H1.
    replace (y + 1 + 1) with (y + 2) by lia. lia.
  - assert (H1' : ~ DayFromYear (y + 1) <= d).
    { intros H. apply TimeFromYear_le in H. lia. }
    destruct (Z.leb_spec (TimeFromYear y) t) as [H2 | H2].
    + apply TimeFromYear_le in H2. fold d in H2. lia.
    + assert (H2' : ~ DayFromYear y <= d).
      { intros H. apply TimeFromYear_le in H. lia. }
      replace (y - 1 + 1) with y by lia. lia.
Qed.

Lemma DayFromYear_succ (y : Z) :
  DayFromYear (y + 1) = DayFromYear y + DaysInYear y.
Proof.
  unfold DayFromYear, DaysInYear.
  destruct (Z.eqb_spec (y mod 4) 0), (Z.eqb_spec (y mod 100) 0),
    (Z.eqb_spec (y mod 400) 0); cbn [negb];
    Z.div_mod_to_equations; lia.
Qed.

Lemma DaysInYear_cases (y : Z) : DaysInYear y = 365 \/ DaysInYear y = 366.
Proof.
  unfold DaysInYear.
  destruct (y mod 4 =? 0), (y mod 100 =? 0), (y mod 400 =? 0); cbn; lia.
Qed.

Lemma DayFromYear_mono (y y' : Z) :
  y <= y' -> DayFromYear y <= DayFromYear y'.
Proof.
  intros H. unfold DayFromYear. Z.div_mod_to_equations. lia.
Qed.

(** [YearFromTime t] is the largest [y] with [TimeFromYear y <= t], as
    the language specification defines it. *)
Lemma YearFromTime_largest (t y : Z) :
  TimeFromYear y <= t <-> y <= YearFromTime t.
Proof.
  pose proof (YearFromTime_spec t) as [Hlo Hhi].
  rewrite TimeFromYear_le. split; intros H.
  - destruct (Z_le_gt_dec y (YearFromTime t)) as [|Hgt]; [assumption|].
    pose proof (DayFromYear_mono (YearFromTime t + 1) y). lia.
  - pose proof (DayFromYear_mono y (YearFromTime t) H). lia.
Qed.

Lemma InLeapYear_cases (t : Z) :
  (InLeapYear t = 0 /\ DaysInYear (YearFromTime t) = 365)
  \/ (InLeapYear t = 1 /\ DaysInYear (YearFromTime t) = 366).
Proof.
  unfold InLeapYear.
  destruct (DaysInYear_cases (YearFromTime t)) as [H | H]; rewrite H;
    cbn; auto.
Qed.

Lemma DayWithinYear_range (t : Z) :
  0 <= DayWithinYear t < 365 + InLeapYear t.
Proof.
  unfold DayWithinYear.
  pose proof (YearFromTime_spec t) as H.
  rewrite DayFromYear_succ in H.
  destruct (InLeapYear_cases t) as [[-> Hl] | [-> Hl]]; lia.
Qed.

Ltac split_ltb :=
  repeat match goal with
         | |- context [?a <? ?b] => destruct (Z.ltb_spec a b)
         end.

Lemma MonthFromTime_range (t : Z) : 0 <= MonthFromTime t <= 11.
Proof. unfold MonthFromTime. split_ltb; lia. Qed.

(** The day of the month counts from the first day of the month. *)
Lemma DateFromTime_spec (t : Z) :
  DateFromTime t
  = DayWithinYear t - daysBeforeMonth (MonthFromTime t) (InLeapYear t) + 1
  /\ 1 <= DateFromTime t <= daysInMonth (MonthFromTime t) (InLeapYear t).
Proof.
  pose proof (DayWithinYear_range t) as Hd.
  assert (Hl : InLeapYear t = 0 \/ InLeapYear t = 1)
    by (destruct (InLeapYear_cases t); tauto).
  unfold DateFromTime, MonthFromTime.
  generalize dependent (DayWithinYear t). generalize dependent (InLeapYear t).
  intros l Hl d Hd.
  split_ltb; cbn [daysBeforeMonth daysInMonth]; lia.
Qed.

Lemma MakeDay_FromTime (t : Z) :
  MakeDay (YearFromTime t) (MonthFromTime t) (DateFromTime t) = Day t.
Proof.
  pose proof (MonthFromTime_range t) as Hm.
  destruct (DateFromTime_spec t) as [Hd _].
  unfold MakeDay.
  rewrite Z.div_small, Z.mod_small, Z.add_0_r by lia.
  change (leapOfYear (YearFromTime t)) with (InLeapYear t).
  rewrite Hd. unfold DayWithinYear. lia.
Qed.

Lemma time_fields_range (t : Z) :
  0 <= HourFromTime t <= 23 /\ 0 <= MinFromTime t <= 59
  /\ 0 <= SecFromTime t <= 59 /\ 0 <= msFromTime t <= 999.
Proof.
  unfold HourFromTime, MinFromTime, SecFromTime, msFromTime,
    msPerHour, msPerMinute, msPerSecond.
  Z.div_mod_to_equations. lia.
Qed.

Lemma MakeTime_FromTime (t : Z) :
  MakeTime (HourFromTime t) (MinFromTime t) (SecFromTime t) (msFromTime t)
  = TimeWithinDay t.
Proof.
  unfold MakeTime, HourFromTime, MinFromTime, SecFromTime, msFromTime,
    TimeWithinDay, msPerHour, msPerMinute, msPerSecond, msPerDay.
  Z.div_mod_to_equations. lia.
Qed.

Lemma MakeDate_FromTime (t : Z) : MakeDate (Day t) (TimeWithinDay t) = t.
Proof.
  unfold MakeDate, Day, TimeWithinDay, msPerDay.
  Z.div_mod_to_equations. lia.
Qed.

(** Within the time range the year needs at most six digits. *)
Lemma YearFromTime_range (t : Z) :
  - maxTime <= t <= maxTime -> -271821 <= YearFromTime t <= 275760.
Proof.
  intros Ht. pose proof (YearFromTime_spec t) as H.
  assert (Hd : -100000000 <= Day t <= 100000000).
  { unfold Day, msPerDay, maxTime in *. Z.div_mod_to_equations. lia. }
  unfold DayFromYear in H. Z.div_mod_to_equations. lia.
Qed.

End EcmaFacts.

(** ** Strings: [indexOf], [split] and [join] *)

Module JsStringFacts.
Import JsString.

Lemma append_assoc (a b c : string) : ((a ++ b) ++ c = a ++ (b ++ c))%string.
Proof. induction a as [|x a IH]; cbn; [reflexivity | now rewrite IH]. Qed.

Lemma append_nil_r (a : string) : (a ++ EmptyString)%string = a.
Proof. induction a as [|x a IH]; cbn; [reflexivity | now rewrite IH]. Qed.

Lemma count_app (c : ascii) (a b : string) :
  count c (a ++ b) = (count c a + count c b)%nat.
Proof.
  induction a as [|x a IH]; cbn; [reflexivity|].
  destruct (Ascii.eqb x c); cbn; now rewrite IH.
Qed.

(** [indexOf] answers [-1] exactly when the character does not occur. *)
Lemma indexOf_ge (c : ascii) (s : string) : -1 <= indexOf c s.
Proof.
  induction s as [|x s IH]; cbn; [lia|].
  destruct (Ascii.eqb x c); [lia|].
  destruct (Z.eqb_spec (indexOf c s) (-1)); lia.
Qed.

Lemma indexOf_absent (c : ascii) (s : string) :
  indexOf c s = -1 <-> count c s = O.
Proof.
  induction s as [|x s IH]; cbn; [tauto|].
  destruct (Ascii.eqb x c); [split; intros; [lia | discriminate]|].
  pose proof (indexOf_ge c s).
  destruct (Z.eqb_spec (indexOf c s) (-1)) as [E | E].
  - tauto.
  - split; [lia | intros H0; apply IH in H0; contradiction].
Qed.

Lemma indexOf_eqb (c : ascii) (s : string) :
  (indexOf c s =? -1) = Nat.eqb (count c s) 0.
Proof.
  destruct (Z.eqb_spec (indexOf c s) (-1)) as [E | E],
    (Nat.eqb_spec (count c s) 0) as [F | F]; try reflexivity.
  - apply indexOf_absent in E. contradiction.
  - apply indexOf_absent in F. contradiction.
Qed.

(** A character occurs in [s] exactly when [s] splits around it. *)
Lemma contains_spec (c : ascii) (s : string) :
  contains c s <-> exists a b : string, s = (a ++ String c b)%string.
Proof.
  unfold contains. split.
  - induction s as [|x s IH]; cbn [count]; [intros H; now destruct H|].
    destruct (Ascii.eqb_spec x c) as [-> | Hx].
    + intros _. now exists EmptyString, s.
    + intros H. destruct (IH H) as (a & b & ->).
      now exists (String x a), b.
  - intros (a & b & ->). rewrite count_app. cbn [count].
    rewrite Ascii.eqb_refl. lia.
Qed.

Lemma split_not_nil (c : ascii) (s : string) : split c s <> [].
Proof.
  induction s as [|x s IH]; cbn; [discriminate|].
  destruct (Ascii.eqb x c); [discriminate|].
  destruct (split c s); [contradiction | discriminate].
Qed.

(** One more segment than there are separators. *)
Lemma length_split (c : ascii) (s : string) :
  List.length (split c s) = S (count c s).
Proof.
  induction s as [|x s IH]; cbn; [reflexivity|].
  destruct (Ascii.eqb x c); cbn; [now rewrite IH|].
  destruct (split c s) as [|seg segs] eqn:E; cbn in *; [discriminate | exact IH].
Qed.

Lemma split_absent (c : ascii) (s : string) :
  count c s = O -> split c s = [s].
Proof.
  induction s as [|x s IH]; cbn; [reflexivity|].
  destruct (Ascii.eqb x c); [discriminate|].
  intros H. now rewrite (IH H).
Qed.

Lemma split_app (c : ascii) (a b : string) :
  count c a = O -> split c (a ++ String c b) = a :: split c b.
Proof.
  induction a as [|x a IH]; cbn.
  - now rewrite Ascii.eqb_refl.
  - destruct (Ascii.eqb x c); [discriminate|].
    intros H. now rewrite (IH H).
Qed.

(** Splitting on [a] and joining with [b] replaces every [a] by [b]. *)
Lemma join_split (a b : ascii) (s : string) :
  join (String b EmptyString) (split a s) = replaceAll a b s.
Proof.
  unfold join.
  induction s as [|x s IH]; cbn; [reflexivity|].
  destruct (Ascii.eqb x a).
  - destruct (split a s) as [|seg segs] eqn:E.
    + now destruct (split_not_nil a s).
    + cbn in *. now rewrite IH.
  - destruct (split a s) as [|seg segs] eqn:E.
    + now destruct (split_not_nil a s).
    + rewrite <- IH. destruct segs; reflexivity.
Qed.

Lemma replaceAll_absent (a b : ascii) (s : string) :
  count a s = O -> replaceAll a b s = s.
Proof.
  induction s as [|x s IH]; cbn; [reflexivity|].
  destruct (Ascii.eqb x a); [discriminate|].
  intros H. now rewrite (IH H).
Qed.

Lemma replaceAll_app (a b : ascii) (s r : string) :
  (replaceAll a b (s ++ r) = replaceAll a b s ++ replaceAll a b r)%string.
Proof. induction s as [|x s IH]; cbn; [reflexivity | now rewrite IH]. Qed.

Lemma replaceFirst_absent (a b : ascii) (s : string) :
  count a s = O -> replaceFirst a b s = s.
Proof.
  induction s as [|x s IH]; cbn; [reflexivity|].
  destruct (Ascii.eqb x a); [discriminate|].
  intros H. now rewrite (IH H).
Qed.

Lemma replaceFirst_app (a b : ascii) (s r : string) :
  count a s = O ->
  (replaceFirst a b (s ++ String a r) = s ++ String b r)%string.
Proof.
  induction s as [|x s IH]; cbn.
  - now rewrite Ascii.eqb_refl.
  - destruct (Ascii.eqb x a); [discriminate|].
    intros H. now rewrite (IH H).
Qed.

(** With a single occurrence, replacing the first and replacing all
    agree. *)
Lemma replaceAll_single (a b : ascii) (s : string) :
  count a s = 1%nat -> replaceAll a b s = replaceFirst a b s.
Proof.
  induction s as [|x s IH]; cbn; [reflexivity|].
  destruct (Ascii.eqb x a).
  - intros H. injection H as H. now rewrite replaceAll_absent.
  - intros H. now rewrite (IH H).
Qed.

End JsStringFacts.

(** ** Decimal fields: printing and reading back *)

Module FieldFacts.
Import Ecma JsString JsStringFacts.

Lemma digit_cases (d : Z) :
  0 <= d <= 9 ->
  d = 0 \/ d = 1 \/ d = 2 \/ d = 3 \/ d = 4 \/ d = 5 \/ d = 6 \/ d = 7
  \/ d = 8 \/ d = 9.
Proof. lia. Qed.

Lemma digitValue_digitChar (d : Z) :
  0 <= d <= 9 -> digitValue (digitChar d) = Some d.
Proof.
  intros H. apply digit_cases in H.
  repeat (destruct H as [-> | H]; [reflexivity|]). now subst.
Qed.

Lemma mod10_range (n : Z) : 0 <= n mod 10 <= 9.
Proof. pose proof (Z.mod_pos_bound n 10). lia. Qed.

(** Reading [w] digits off a [w]-digit field. *)
Lemma digits_pad (w : nat) (n acc : Z) (rest : string) :
  0 <= n ->
  digits w acc (pad w n ++ rest)
  = Some (acc * 10 ^ Z.of_nat w + n mod 10 ^ Z.of_nat w, rest).
Proof.
  intros Hn. revert acc.
  induction w as [|w IH]; intros acc.
  - cbn [digits pad append]. rewrite Z.mod_1_r. f_equal. f_equal. cbn. lia.
  - cbn [digits pad append].
    rewrite digitValue_digitChar by apply mod10_range.
    rewrite IH. f_equal. f_equal.
    rewrite Nat2Z.inj_succ, Z.pow_succ_r by lia.
    assert (Hp : 0 < 10 ^ Z.of_nat w) by (apply Z.pow_pos_nonneg; lia).
    rewrite (Z.mul_comm 10 (10 ^ Z.of_nat w)).
    rewrite (Z.rem_mul_r n (10 ^ Z.of_nat w) 10) by lia.
    lia.
Qed.

Lemma digits_pad_exact (w : nat) (n : Z) (rest : string) :
  0 <= n < 10 ^ Z.of_nat w ->
  digits w 0 (pad w n ++ rest) = Some (n, rest).
Proof.
  intros H. rewrite digits_pad by lia. now rewrite Z.mod_small by lia.
Qed.

(** A field holds digits only. *)
Lemma count_pad (c : ascii) (w : nat) (n : Z) :
  digitValue c = None -> count c (pad w n) = O.
Proof.
  intros Hc. induction w as [|w IH]; cbn [pad count]; [reflexivity|].
  destruct (Ascii.eqb_spec (digitChar ((n / 10 ^ Z.of_nat w) mod 10)) c)
    as [E | E]; [|exact IH].
  rewrite <- E, digitValue_digitChar in Hc by apply mod10_range.
  discriminate.
Qed.

Lemma matches_pad (w : nat) (n : Z) (p : list Pat) (rest : string) :
  matches (List.repeat Dg w ++ p)%list (pad w n ++ rest) = matches p rest.
Proof.
  induction w as [|w IH]; cbn [List.repeat app pad append matches];
    [reflexivity|].
  now rewrite digitValue_digitChar by apply mod10_range.
Qed.

Lemma expect_head (c : ascii) (r : string) :
  expect c (String c r) = Some (tt, r).
Proof. cbn. now rewrite Ascii.eqb_refl. Qed.

(** A string that starts with a digit has no sign: its year is read as
    four digits. *)
Lemma year_unsigned (c : ascii) (r : string) (d : Z) :
  digitValue c = Some d -> year (String c r) = digits 4 0 (String c r).
Proof.
  destruct c as [[] [] [] [] [] [] [] []]; intros H;
    try reflexivity; discriminate H.
Qed.

Lemma year_yearString (y : Z) (rest : string) :
  -999999 <= y <= 999999 ->
  year (yearString y ++ rest) = Some (y, rest).
Proof.
  intros Hy. unfold yearString.
  destruct (Z.leb_spec 0 y) as [H0 | H0];
    [destruct (Z.leb_spec y 9999) as [H1 | H1]|]; cbn [andb].
  - change (pad 4 y) with
      (String (digitChar ((y / 10 ^ Z.of_nat 3) mod 10)) (pad 3 y)).
    cbn [append].
    rewrite (year_unsigned _ _ ((y / 10 ^ Z.of_nat 3) mod 10))
      by (apply digitValue_digitChar, mod10_range).
    apply (digits_pad_exact 4 y rest). cbn. lia.
  - destruct (Z.ltb_spec y 0); [lia|].
    cbn [append year]. apply (digits_pad_exact 6 y rest). cbn. lia.
  - destruct (Z.ltb_spec y 0); [|lia].
    cbn [append year]. rewrite (digits_pad_exact 6 (- y) rest) by (cbn; lia).
    destruct (Z.eqb_spec (- y) 0); [lia|]. f_equal. f_equal. lia.
Qed.

Lemma count_yearString_digitless (c : ascii) (y : Z) :
  digitValue c = None -> c <> "-"%char -> c <> "+"%char ->
  count c (yearString y) = O.
Proof.
  intros Hc Hm Hp. unfold yearString.
  destruct ((0 <=? y) && (y <=? 9999)); [now apply count_pad|].
  destruct (y <? 0); cbn [count].
  - destruct (Ascii.eqb_spec "-"%char c); [congruence | now apply count_pad].
  - destruct (Ascii.eqb_spec "+"%char c); [congruence | now apply count_pad].
Qed.

End FieldFacts.

(** ** The serializer and the constructor *)

Module SerializerFacts.
Import Ecma EcmaFacts JsString JsStringFacts FieldFacts.

Lemma digits2 (n : Z) (rest : string) :
  0 <= n <= 99 -> digits 2 0 (pad 2 n ++ rest) = Some (n, rest).
Proof. intros H. apply digits_pad_exact. cbn. lia. Qed.

Lemma digits3 (n : Z) (rest : string) :
  0 <= n <= 999 -> digits 3 0 (pad 3 n ++ rest) = Some (n, rest).
Proof. intros H. apply digits_pad_exact. cbn. lia. Qed.

(** The serialization, as one right-nested concatenation. *)
Lemma toISOString_fields (t : Z) :
  toISOString t
  = (yearString (YearFromTime t)
       ++ String "-" (pad 2 (MonthFromTime t + 1)
       ++ String "-" (pad 2 (DateFromTime t)
       ++ String "T" (pad 2 (HourFromTime t)
       ++ String ":" (pad 2 (MinFromTime t)
       ++ String ":" (pad 2 (SecFromTime t)
       ++ String "." (pad 3 (msFromTime t)
       ++ String "Z" EmptyString)))))))%string.
Proof.
  unfold toISOString, datePart, timePart.
  repeat rewrite append_assoc. reflexivity.
Qed.

Lemma TimeClip_in_range (t : Z) :
  - maxTime <= t <= maxTime -> TimeClip (Ms t) = Ms t.
Proof.
  intros H. unfold TimeClip. destruct (Z.ltb_spec maxTime (Z.abs t)); [lia|].
  reflexivity.
Qed.

Lemma daysInMonth_le (m l : Z) :
  0 <= m <= 11 -> l <= 1 -> daysInMonth m l <= 31.
Proof.
  intros Hm Hl.
  assert (H : m = 0 \/ m = 1 \/ m = 2 \/ m = 3 \/ m = 4 \/ m = 5 \/ m = 6
              \/ m = 7 \/ m = 8 \/ m = 9 \/ m = 10 \/ m = 11) by lia.
  repeat (destruct H as [-> | H]; [cbn [daysInMonth]; lia|]).
  subst. cbn [daysInMonth]. lia.
Qed.

Ltac parser_step :=
  first [ rewrite expect_head
        | rewrite year_yearString by lia
        | rewrite digits2 by lia
        | rewrite digits3 by lia ];
  cbv beta iota.

(** The constructor reads a serialized instant back: on the output of
    [toISOString] the Date Time String Format yields the time value that
    was printed. *)
Lemma parseDateTime_toISOString (t : Z) :
  - maxTime <= t <= maxTime ->
  parseDateTime (toISOString t) = Some (Ms t).
Proof.
  intros Ht.
  pose proof (YearFromTime_range t Ht) as Hy.
  pose proof (MonthFromTime_range t) as Hm.
  destruct (DateFromTime_spec t) as [_ Hd].
  destruct (time_fields_range t) as (Hh & Hmi & Hs & Hms).
  assert (Hl : InLeapYear t <= 1)
    by (destruct (InLeapYear_cases t) as [[-> _] | [-> _]]; lia).
  pose proof (daysInMonth_le (MonthFromTime t) (InLeapYear t) Hm Hl) as Hdim.
  rewrite toISOString_fields. unfold parseDateTime.
  repeat parser_step.
  replace (MonthFromTime t + 1 - 1) with (MonthFromTime t) by lia.
  change (leapOfYear (YearFromTime t)) with (InLeapYear t).
  replace (1 <=? MonthFromTime t + 1) with true by (symmetry; apply Z.leb_le; lia).
  replace (MonthFromTime t + 1 <=? 12) with true by (symmetry; apply Z.leb_le; lia).
  replace (1 <=? DateFromTime t) with true by (symmetry; apply Z.leb_le; lia).
  replace (DateFromTime t <=? daysInMonth (MonthFromTime t) (InLeapYear t))
    with true by (symmetry; apply Z.leb_le; lia).
  replace (HourFromTime t <=? 23) with true by (symmetry; apply Z.leb_le; lia).
  replace (MinFromTime t <=? 59) with true by (symmetry; apply Z.leb_le; lia).
  replace (SecFromTime t <=? 59) with true by (symmetry; apply Z.leb_le; lia).
  cbn [andb].
  rewrite MakeDay_FromTime, MakeTime_FromTime, MakeDate_FromTime.
  now rewrite TimeClip_in_range.
Qed.

End SerializerFacts.

(** ** The two segments of a serialized instant *)

Module SegmentFacts.
Import Ecma EcmaFacts JsString JsStringFacts FieldFacts SerializerFacts.

(** A character that is no digit and none of [-+:.Z] occurs in neither
    segment. *)
Lemma count_datePart (c : ascii) (t : Z) :
  digitValue c = None -> c <> "-"%char -> c <> "+"%char ->
  count c (datePart t) = O.
Proof.
  intros Hc Hm Hp. unfold datePart.
  rewrite !count_app, count_yearString_digitless, !count_pad by assumption.
  cbn [count]. destruct (Ascii.eqb_spec "-"%char c); [congruence | reflexivity].
Qed.

Lemma count_timePart (c : ascii) (t : Z) :
  digitValue c = None -> c <> ":"%char -> c <> "."%char -> c <> "Z"%char ->
  count c (timePart t) = O.
Proof.
  intros Hc H1 H2 H3. unfold timePart.
  rewrite !count_app, !count_pad by assumption.
  cbn [count].
  destruct (Ascii.eqb_spec ":"%char c); [congruence|].
  destruct (Ascii.eqb_spec "."%char c); [congruence|].
  destruct (Ascii.eqb_spec "Z"%char c); [congruence | reflexivity].
Qed.

Lemma datePart_no_T (t : Z) : count "T" (datePart t) = O.
Proof. apply count_datePart; [reflexivity | discriminate..]. Qed.

Lemma datePart_no_space (t : Z) : count " " (datePart t) = O.
Proof. apply count_datePart; [reflexivity | discriminate..]. Qed.

Lemma timePart_no_T (t : Z) : count "T" (timePart t) = O.
Proof. apply count_timePart; [reflexivity | discriminate..]. Qed.

Lemma timePart_no_space (t : Z) : count " " (timePart t) = O.
Proof. apply count_timePart; [reflexivity | discriminate..]. Qed.

(** The serialization holds exactly one ['T'] and no space. *)
Lemma toISOString_one_T (t : Z) : count "T" (toISOString t) = 1%nat.
Proof.
  unfold toISOString. rewrite !count_app, datePart_no_T, timePart_no_T.
  reflexivity.
Qed.

Lemma toISOString_no_space (t : Z) : count " " (toISOString t) = O.
Proof.
  unfold toISOString.
  rewrite !count_app, datePart_no_space, timePart_no_space. reflexivity.
Qed.

Lemma split_toISOString (t : Z) :
  split "T" (toISOString t) = [datePart t; timePart t].
Proof.
  unfold toISOString. change ("T" ++ timePart t)%string with (String "T" (timePart t)).
  rewrite split_app by apply datePart_no_T.
  now rewrite split_absent by apply timePart_no_T.
Qed.

Lemma canonical_replaceFirst (t : Z) :
  canonical t = replaceFirst "T" " " (toISOString t).
Proof.
  unfold canonical, toISOString.
  change ("T" ++ timePart t)%string with (String "T" (timePart t)).
  now rewrite replaceFirst_app by apply datePart_no_T.
Qed.

Lemma canonical_counts (t : Z) :
  count " " (canonical t) = 1%nat /\ count "T" (canonical t) = O.
Proof.
  unfold canonical.
  rewrite !count_app, datePart_no_T, timePart_no_T, datePart_no_space,
    timePart_no_space.
  split; reflexivity.
Qed.

Lemma canonical_nonempty (t : Z) : truthy (canonical t) = true.
Proof.
  destruct (canonical t) eqn:E; [|reflexivity].
  pose proof (canonical_counts t) as [H _]. rewrite E in H. discriminate.
Qed.

(** The separator rewrite of the parser undoes the formatter's. *)
Lemma formattedDate_canonical (t : Z) :
  formattedDate (canonical t) = toISOString t.
Proof.
  unfold formattedDate.
  pose proof (canonical_counts t) as [Hs HT].
  rewrite !indexOf_eqb, Hs, HT. cbn [Nat.eqb negb andb].
  rewrite join_split. unfold canonical, toISOString.
  rewrite !replaceAll_app.
  rewrite (replaceAll_absent _ _ (datePart t)) by apply datePart_no_space.
  rewrite (replaceAll_absent _ _ (timePart t)) by apply timePart_no_space.
  reflexivity.
Qed.

Lemma dateToRFC3339Parts_valid (t : Z) :
  dateToRFC3339Parts (mkDate (Ms t))
  = Effect.succeed [datePart t; timePart t].
Proof.
  unfold dateToRFC3339Parts, dateToRFC3339Parts_with. cbn [getTime].
  rewrite split_toISOString. reflexivity.
Qed.

Lemma dateToRFC3339_valid (t : Z) :
  dateToRFC3339 (mkDate (Ms t)) = Effect.succeed (canonical t).
Proof.
  unfold dateToRFC3339. rewrite dateToRFC3339Parts_valid. reflexivity.
Qed.

Lemma newDate_toISOString (fallback : string -> TimeValue) (t : Z) :
  - maxTime <= t <= maxTime ->
  newDate fallback (toISOString t) = mkDate (Ms t).
Proof.
  intros Ht. unfold newDate, parse.
  rewrite parseDateTime_toISOString by assumption.
  now rewrite TimeClip_in_range.
Qed.

(** A constructed date is well formed, whatever the engine's fallback. *)
Lemma newDate_wf (fallback : string -> TimeValue) (s : string) :
  wf_date (newDate fallback s).
Proof.
  unfold wf_date, newDate, TimeClip. cbn [getTime].
  destruct (parse fallback s) as [|t]; [exact I|].
  destruct (Z.ltb_spec maxTime (Z.abs t)); [exact I | lia].
Qed.

Lemma rfc3339ToDate_canonical (fallback : string -> TimeValue) (t : Z) :
  - maxTime <= t <= maxTime ->
  rfc3339ToDate fallback (canonical t) = Effect.succeed (mkDate (Ms t)).
Proof.
  intros Ht. unfold rfc3339ToDate, rfc3339ToDate_traced.
  rewrite canonical_nonempty. cbn [negb].
  unfold Traced.bind, Traced.new_Date. cbn [Traced.value].
  rewrite formattedDate_canonical, newDate_toISOString by assumption.
  reflexivity.
Qed.

End SegmentFacts.

(** ** The parser, without its trace *)

Module ParserFacts.
Import Ecma JsString JsStringFacts SegmentFacts.

Section WithEngine.
Variable fallback : string -> TimeValue.

Lemma rfc3339ToDate_nonempty (s : string) :
  truthy s = true ->
  rfc3339ToDate_traced fallback s
  = let date := newDate fallback (formattedDate s) in
    Traced.mk [formattedDate s]
      (if isNaN (getTime date)
       then Effect.fail {| type := dateInvalidFormat;
                           message := invalidMessage s |}
       else Effect.succeed date).
Proof.
  intros H. unfold rfc3339ToDate_traced. rewrite H. cbn [negb].
  unfold Traced.bind, Traced.new_Date, Traced.ret.
  cbn [Traced.value Traced.constructed app].
  destruct (isNaN (getTime (newDate fallback (formattedDate s))));
    reflexivity.
Qed.

Lemma count_truthy (c : ascii) (s : string) :
  count c s <> O -> truthy s = true.
Proof. destruct s; [intros H; now destruct H | reflexivity]. Qed.

(** A date the parser returns came out of the constructor and is
    valid. *)
Lemma rfc3339ToDate_succeed (s : string) (d : Date) :
  rfc3339ToDate fallback s = Effect.succeed d ->
  valid_date d.
Proof.
  unfold rfc3339ToDate. destruct (truthy s) eqn:Hs.
  - rewrite rfc3339ToDate_nonempty by assumption.
    cbv zeta. cbn [Traced.value].
    destruct (isNaN (getTime (newDate fallback (formattedDate s)))) eqn:E;
      [discriminate|].
    intros H. injection H as <-. split; [apply newDate_wf | exact E].
  - unfold rfc3339ToDate_traced. rewrite Hs. cbn. discriminate.
Qed.

Lemma valid_date_inv (d : Date) :
  valid_date d -> exists t, d = mkDate (Ms t) /\ - maxTime <= t <= maxTime.
Proof.
  intros [Hwf Hv]. destruct d as [[|t]]; [discriminate|].
  exists t. split; [reflexivity | exact Hwf].
Qed.

End WithEngine.

End ParserFacts.

(* ================================================================== *)
(** * Part III: the properties of the specification *)
(* ================================================================== *)

Import Ecma JsString JsStringFacts SegmentFacts ParserFacts.

(** C1: for every valid date [d], [dateToRFC3339 d] succeeds with a string
    on which [rfc3339ToDate] succeeds with a date of the same time value
    as [d], whatever the engine does with strings outside the Date Time
    String Format. *)
Theorem rfc3339ToDate_dateToRFC3339 (fallback : string -> TimeValue) (d : Date) :
  valid_date d ->
  exists (s : string) (d' : Date),
    dateToRFC3339 d = Effect.succeed s
    /\ rfc3339ToDate fallback s = Effect.succeed d'
    /\ getTime d' = getTime d.
Proof.
  intros Hd. destruct (valid_date_inv d Hd) as (t & -> & Ht).
  exists (canonical t), (mkDate (Ms t)).
  rewrite dateToRFC3339_valid, rfc3339ToDate_canonical by assumption.
  repeat split.
Qed.

Lemma valid_date_2025 : valid_date (mkDate (Ms 1743165045000)).
Proof. split; [unfold wf_date, maxTime; cbn [getTime]; lia | reflexivity]. Defined.

Lemma rfc3339ToDate_dateToRFC3339_witness :
  exists (s : string) (d' : Date),
    dateToRFC3339 (mkDate (Ms 1743165045000)) = Effect.succeed s
    /\ rfc3339ToDate strictEngine s = Effect.succeed d'
    /\ getTime d' = Ms 1743165045000.
Proof.
  exact (rfc3339ToDate_dateToRFC3339 strictEngine (mkDate (Ms 1743165045000))
           valid_date_2025).
Defined.

(** C2: [assertRFC3339Date] is idempotent on accepted inputs: when it
    succeeds on [s] with result [r], it succeeds on [r] with result [r]. *)
Theorem assertRFC3339Date_idempotent
  (fallback : string -> TimeValue) (s r : string) :
  assertRFC3339Date fallback s = Effect.succeed r ->
  assertRFC3339Date fallback r = Effect.succeed r.
Proof.
  unfold assertRFC3339Date.
  destruct (rfc3339ToDate fallback s) as [d | e | m] eqn:E;
    cbn [Effect.flatMap]; try discriminate.
  apply rfc3339ToDate_succeed in E.
  destruct (valid_date_inv d E) as (t & -> & Ht).
  rewrite dateToRFC3339_valid. intros H. injection H as <-.
  rewrite rfc3339ToDate_canonical by assumption. cbn [Effect.flatMap].
  apply dateToRFC3339_valid.
Qed.

Lemma assertRFC3339Date_idempotent_witness :
  assertRFC3339Date strictEngine "2025-03-28T12:30:45.000Z"
  = Effect.succeed "2025-03-28 12:30:45.000Z"
  /\ assertRFC3339Date strictEngine "2025-03-28 12:30:45.000Z"
     = Effect.succeed "2025-03-28 12:30:45.000Z".
Proof.
  split; [vm_compute; reflexivity|].
  apply (assertRFC3339Date_idempotent strictEngine "2025-03-28T12:30:45.000Z").
  vm_compute. reflexivity.
Defined.

(** C3 (as stated, refuted): on an input with two spaces and no ['T'] the
    date is not constructed from the input with only its first space
    replaced: [split(" ").join("T")] replaces both. *)
Lemma formattedDate_first_space_counterexample :
  Traced.constructed
    (rfc3339ToDate_traced strictEngine "2025-03-28  12:30:45.000Z")
  = ["2025-03-28TT12:30:45.000Z"]
  /\ replaceFirst " " "T" "2025-03-28  12:30:45.000Z"
     = "2025-03-28T 12:30:45.000Z"
  /\ "2025-03-28TT12:30:45.000Z" <> "2025-03-28T 12:30:45.000Z".
Proof. repeat split. discriminate. Qed.

(** C3 (amended): for a non-empty input that contains a space and no
    ['T'], [rfc3339ToDate] constructs exactly one date, from the input
    with every space replaced by ['T'] (which is the input with its first
    space replaced when there is a single space); for a non-empty input
    that contains a ['T'] or no space, it constructs exactly one date,
    from the input unchanged. *)
Theorem rfc3339ToDate_constructed_from
  (fallback : string -> TimeValue) (s : string) :
  truthy s = true ->
  (contains " " s -> ~ contains "T" s ->
   Traced.constructed (rfc3339ToDate_traced fallback s)
   = [replaceAll " " "T" s])
  /\ (count " " s = 1%nat -> ~ contains "T" s ->
      Traced.constructed (rfc3339ToDate_traced fallback s)
      = [replaceFirst " " "T" s])
  /\ (contains "T" s \/ ~ contains " " s ->
      Traced.constructed (rfc3339ToDate_traced fallback s) = [s]).
Proof.
  intros Hs. rewrite rfc3339ToDate_nonempty by assumption.
  cbv zeta. cbn [Traced.constructed]. unfold contains, formattedDate.
  rewrite !indexOf_eqb, join_split.
  assert (Hall : count " " s <> O -> ~ count "T" s <> O ->
                 [if negb (Nat.eqb (count " " s) 0) && Nat.eqb (count "T" s) 0
                  then replaceAll " " "T" s else s]
                 = [replaceAll " " "T" s]).
  { intros H1 H2.
    destruct (Nat.eqb_spec (count " " s) 0); [contradiction|].
    destruct (Nat.eqb_spec (count "T" s) 0); [reflexivity | contradiction]. }
  split; [exact Hall|]. split.
  - intros H1 H2. rewrite <- (replaceAll_single " " "T" s H1).
    apply Hall; [rewrite H1; discriminate | exact H2].
  - intros [H | H].
    + destruct (Nat.eqb_spec (count "T" s) 0); [contradiction|].
      now rewrite andb_false_r.
    + destruct (Nat.eqb_spec (count " " s) 0); [reflexivity|contradiction].
Qed.

Lemma rfc3339ToDate_constructed_from_witness :
  Traced.constructed
    (rfc3339ToDate_traced strictEngine "2025-03-28 12:30:45.000Z")
  = [replaceAll " " "T" "2025-03-28 12:30:45.000Z"]
  /\ Traced.constructed
       (rfc3339ToDate_traced strictEngine "2025-03-28T12:30:45.000Z")
     = ["2025-03-28T12:30:45.000Z"].
Proof.
  split.
  - refine (proj1 (rfc3339ToDate_constructed_from strictEngine
                     "2025-03-28 12:30:45.000Z" eq_refl) _ _).
    + unfold contains. intros H. vm_compute in H. discriminate H.
    + unfold contains. intros H. apply H. vm_compute. reflexivity.
  - refine (proj2 (proj2 (rfc3339ToDate_constructed_from strictEngine
                            "2025-03-28T12:30:45.000Z" eq_refl)) _).
    left. unfold contains. intros H. vm_compute in H. discriminate H.
Defined.

(** C5: on a non-empty input for which the constructed date (after the
    separator rewrite) is invalid, [rfc3339ToDate] fails with
    [dateInvalidFormat] and the message [The provided date string
    "<input>" is invalid.], with the original input between the quotes. *)
Theorem rfc3339ToDate_invalid (fallback : string -> TimeValue) (s : string) :
  truthy s = true ->
  isNaN (getTime (newDate fallback (formattedDate s))) = true ->
  rfc3339ToDate fallback s
  = Effect.fail
      {| type := dateInvalidFormat;
         message := ("The provided date string " ++ dquote ++ s ++ dquote
                       ++ " is invalid.")%string |}.
Proof.
  intros Hs Hn. unfold rfc3339ToDate.
  rewrite rfc3339ToDate_nonempty by assumption.
  cbv zeta. cbn [Traced.value]. now rewrite Hn.
Qed.

Lemma rfc3339ToDate_invalid_witness :
  rfc3339ToDate strictEngine "not-a-date"
  = Effect.fail
      {| type := dateInvalidFormat;
         message := ("The provided date string " ++ dquote ++ "not-a-date"
                       ++ dquote ++ " is invalid.")%string |}.
Proof.
  apply (rfc3339ToDate_invalid strictEngine "not-a-date");
    vm_compute; reflexivity.
Defined.

(** C6: on the empty string [rfc3339ToDate] fails with [dateInvalidFormat]
    and the message [The provided date string is empty.], and the [Date]
    constructor is not called. *)
Theorem rfc3339ToDate_empty (fallback : string -> TimeValue) :
  rfc3339ToDate_traced fallback EmptyString
  = Traced.mk []
      (Effect.fail {| type := dateInvalidFormat;
                      message := "The provided date string is empty." |})
  /\ rfc3339ToDate fallback EmptyString
     = Effect.fail {| type := dateInvalidFormat;
                      message := "The provided date string is empty." |}.
Proof. split; reflexivity. Qed.

(** C7: on an invalid date (time value [NaN]) [dateToRFC3339Parts] fails
    with [dateInvalid] and the message [The provided date is invalid.],
    and [dateToRFC3339] fails with the same error value. *)
Theorem dateToRFC3339_invalid (d : Date) :
  isNaN (getTime d) = true ->
  dateToRFC3339Parts d
  = Effect.fail {| type := dateInvalid;
                   message := "The provided date is invalid." |}
  /\ dateToRFC3339 d
     = Effect.fail {| type := dateInvalid;
                      message := "The provided date is invalid." |}.
Proof.
  intros H. unfold dateToRFC3339, dateToRFC3339Parts, dateToRFC3339Parts_with.
  destruct (getTime d); [split; reflexivity | discriminate].
Qed.

Lemma dateToRFC3339_invalid_witness :
  dateToRFC3339Parts (mkDate NaN)
  = Effect.fail {| type := dateInvalid;
                   message := "The provided date is invalid." |}
  /\ dateToRFC3339 (mkDate NaN)
     = Effect.fail {| type := dateInvalid;
                      message := "The provided date is invalid." |}.
Proof. exact (dateToRFC3339_invalid (mkDate NaN) eq_refl). Defined.

(** C8: on an input that contains a ['T'], [rfc3339ToDate] rewrites no
    separator: it constructs exactly one date, from the input as given,
    whether or not the input also contains spaces. *)
Theorem rfc3339ToDate_T_unchanged (fallback : string -> TimeValue) (s : string) :
  contains "T" s ->
  formattedDate s = s
  /\ Traced.constructed (rfc3339ToDate_traced fallback s) = [s].
Proof.
  intros HT.
  assert (Hf : formattedDate s = s).
  { unfold formattedDate. rewrite !indexOf_eqb.
    destruct (Nat.eqb_spec (count "T" s) 0); [contradiction|].
    now rewrite andb_false_r. }
  split; [exact Hf|].
  rewrite rfc3339ToDate_nonempty by (apply (count_truthy "T"); exact HT).
  cbv zeta. cbn [Traced.constructed]. now rewrite Hf.
Qed.

Lemma rfc3339ToDate_T_unchanged_witness :
  formattedDate "Tue Mar 25 2025 12:30:45" = "Tue Mar 25 2025 12:30:45"
  /\ Traced.constructed
       (rfc3339ToDate_traced strictEngine "Tue Mar 25 2025 12:30:45")
     = ["Tue Mar 25 2025 12:30:45"].
Proof.
  apply (rfc3339ToDate_T_unchanged strictEngine "Tue Mar 25 2025 12:30:45").
  unfold contains. intros H. vm_compute in H. discriminate H.
Defined.

(** ** The splitter over an arbitrary serializer *)

Lemma length_two (c : ascii) (s : string) :
  Nat.eqb (List.length (split c s)) 2 = Nat.eqb (count c s) 1.
Proof. rewrite length_split. reflexivity. Qed.

(** C9 (as stated, refuted): a serializer whose output has no ['T'] (so
    not exactly one) but exactly one space does not make
    [dateToRFC3339Parts] throw: the fallback split on the space
    succeeds. *)
Lemma dateToRFC3339Parts_space_counterexample :
  count "T" "2025-03-28 12:30:45.000Z" = O
  /\ dateToRFC3339Parts_with (fun _ => "2025-03-28 12:30:45.000Z")
       (mkDate (Ms 0))
     = Effect.succeed ["2025-03-28"; "12:30:45.000Z"].
Proof. split; reflexivity. Qed.

(** C9 (amended): for a date with time value [t] and any serializer,
    - when the serializer's output holds exactly one ['T'],
      [dateToRFC3339Parts] succeeds with the two segments around it;
    - when it holds not exactly one ['T'] but exactly one space, it
      succeeds with the two segments around the space;
    - when it holds neither exactly one ['T'] nor exactly one space, it
      throws (a defect with the separator message), and returns no typed
      failure;
    and on the platform's [toISOString] the first case always applies, so
    the throwing branch is not reached for any valid date. *)
Theorem dateToRFC3339Parts_throw (serialize : Z -> string) (d : Date) (t : Z) :
  getTime d = Ms t ->
  (count "T" (serialize t) = 1%nat ->
   dateToRFC3339Parts_with serialize d
   = Effect.succeed (split "T" (serialize t))
   /\ List.length (split "T" (serialize t)) = 2%nat)
  /\ (count "T" (serialize t) <> 1%nat -> count " " (serialize t) = 1%nat ->
      dateToRFC3339Parts_with serialize d
      = Effect.succeed (split " " (serialize t))
      /\ List.length (split " " (serialize t)) = 2%nat)
  /\ (count "T" (serialize t) <> 1%nat -> count " " (serialize t) <> 1%nat ->
      dateToRFC3339Parts_with serialize d = Effect.die separatorMessage)
  /\ dateToRFC3339Parts d = Effect.succeed [datePart t; timePart t].
Proof.
  intros Hd. unfold dateToRFC3339Parts, dateToRFC3339Parts_with.
  rewrite Hd. cbv zeta. rewrite !(length_two "T").
  split; [intros HT | split; [intros HT Hs | split; [intros HT Hs |]]].
  - rewrite HT. cbn [Nat.eqb negb]. rewrite length_two, HT.
    split; [reflexivity | now rewrite length_split, HT].
  - destruct (Nat.eqb_spec (count "T" (serialize t)) 1); [contradiction|].
    cbn [negb]. rewrite length_two, Hs.
    split; [reflexivity | now rewrite length_split, Hs].
  - destruct (Nat.eqb_spec (count "T" (serialize t)) 1); [contradiction|].
    cbn [negb]. rewrite length_two.
    destruct (Nat.eqb_spec (count " " (serialize t)) 1); [contradiction|].
    reflexivity.
  - rewrite toISOString_one_T. cbn [Nat.eqb negb].
    rewrite length_two, toISOString_one_T. cbn [Nat.eqb negb].
    now rewrite split_toISOString.
Qed.

Lemma dateToRFC3339Parts_throw_witness :
  dateToRFC3339Parts_with (fun _ => "19700101") (mkDate (Ms 0))
  = Effect.die separatorMessage
  /\ dateToRFC3339Parts (mkDate (Ms 0))
     = Effect.succeed ["1970-01-01"; "00:00:00.000Z"].
Proof.
  pose proof (dateToRFC3339Parts_throw (fun _ => "19700101")
                (mkDate (Ms 0)) 0 eq_refl) as (_ & _ & Hdie & Hok).
  split.
  - apply Hdie; intros H; vm_compute in H; discriminate H.
  - exact Hok.
Defined.

(** C10: for a date with time value [t] (a valid date), [toISOString]
    holds exactly one ['T'], and [dateToRFC3339] succeeds with that
    serialization in which the ['T'] is replaced by one space and every
    other character is kept: the text before the ['T'], a space, the text
    after it. *)
Theorem dateToRFC3339_toISOString (d : Date) (t : Z) :
  getTime d = Ms t ->
  count "T" (toISOString t) = 1%nat
  /\ dateToRFC3339 d = Effect.succeed (replaceFirst "T" " " (toISOString t))
  /\ exists a b : string,
       toISOString t = (a ++ "T" ++ b)%string
       /\ count "T" a = O /\ count "T" b = O
       /\ dateToRFC3339 d = Effect.succeed (a ++ " " ++ b)%string.
Proof.
  intros Hd. destruct d as [v]. cbn [getTime] in Hd. subst v.
  split; [apply toISOString_one_T|]. split.
  - rewrite dateToRFC3339_valid. f_equal. apply canonical_replaceFirst.
  - exists (datePart t), (timePart t).
    repeat split;
      [apply datePart_no_T | apply timePart_no_T | apply dateToRFC3339_valid].
Qed.

Lemma dateToRFC3339_toISOString_witness :
  toISOString 1743165045000 = "2025-03-28T12:30:45.000Z"
  /\ dateToRFC3339 (mkDate (Ms 1743165045000))
     = Effect.succeed (replaceFirst "T" " " (toISOString 1743165045000)).
Proof.
  split; [vm_compute; reflexivity|].
  exact (proj1 (proj2 (dateToRFC3339_toISOString
                         (mkDate (Ms 1743165045000)) 1743165045000 eq_refl))).
Defined.

(** ** The shape of the canonical string *)

Module ShapeFacts.
Import FieldFacts EcmaFacts.

Lemma matches_ch (c : ascii) (p : list Pat) (r : string) :
  matches (Ch c :: p) (String c r) = matches p r.
Proof. cbn [matches]. now rewrite Ascii.eqb_refl. Qed.

Lemma matches_nondigit (c : ascii) (p : list Pat) (r : string) :
  digitValue c = None -> matches (Dg :: p) (String c r) = false.
Proof. intros H. cbn [matches]. now rewrite H. Qed.

(** The canonical string, as one right-nested concatenation. *)
Lemma canonical_fields (t : Z) :
  canonical t
  = (yearString (YearFromTime t)
       ++ String "-" (pad 2 (MonthFromTime t + 1)
       ++ String "-" (pad 2 (DateFromTime t)
       ++ String " " (pad 2 (HourFromTime t)
       ++ String ":" (pad 2 (MinFromTime t)
       ++ String ":" (pad 2 (SecFromTime t)
       ++ String "." (pad 3 (msFromTime t)
       ++ String "Z" EmptyString)))))))%string.
Proof.
  unfold canonical, datePart, timePart.
  repeat rewrite append_assoc. reflexivity.
Qed.

Lemma matches_year_tail (w : nat) (y : Z) (t : Z) :
  matches (List.repeat Dg w ++ tailPattern)%list
    (pad w y
       ++ String "-" (pad 2 (MonthFromTime t + 1)
       ++ String "-" (pad 2 (DateFromTime t)
       ++ String " " (pad 2 (HourFromTime t)
       ++ String ":" (pad 2 (MinFromTime t)
       ++ String ":" (pad 2 (SecFromTime t)
       ++ String "." (pad 3 (msFromTime t)
       ++ String "Z" EmptyString)))))))%string
  = true.
Proof.
  unfold tailPattern.
  repeat (rewrite matches_pad || rewrite matches_ch).
  reflexivity.
Qed.

(** The years printed with four digits are those of the instants from
    0000-01-01T00:00:00.000Z to 9999-12-31T23:59:59.999Z. *)
Lemma four_digit_years (t : Z) :
  0 <= YearFromTime t <= 9999
  <-> -62167219200000 <= t <= 253402300799999.
Proof.
  pose proof (YearFromTime_largest t 0) as H0.
  pose proof (YearFromTime_largest t 10000) as H1.
  change (TimeFromYear 0) with (-62167219200000) in H0.
  change (TimeFromYear 10000) with 253402300800000 in H1.
  lia.
Qed.

End ShapeFacts.

Import ShapeFacts.

(** C4 (at the failing input): the date 10000-01-01T00:00:00.000Z is a
    valid date, and [dateToRFC3339] succeeds on it with a string that
    starts with a sign and a six-digit year, which is not of the shape
    [YYYY-MM-DD HH:MM:SS.sssZ]. *)
Theorem dateToRFC3339_year_10000 :
  valid_date (mkDate (Ms 253402300800000))
  /\ dateToRFC3339 (mkDate (Ms 253402300800000))
     = Effect.succeed "+010000-01-01 00:00:00.000Z"
  /\ canonicalShape "+010000-01-01 00:00:00.000Z" = false.
Proof.
  split; [|split; vm_compute; reflexivity].
  split; [unfold wf_date, maxTime; cbn [getTime]; lia | reflexivity].
Qed.

(** X1: for a date with time value [t], [dateToRFC3339] succeeds, and its
    result is of the shape [YYYY-MM-DD HH:MM:SS.sssZ] exactly when the UTC
    year of [t] is within [0..9999], that is, when [t] lies between
    [-62167219200000] and [253402300799999]; for a negative year the result
    is of the shape [-YYYYYY-MM-DD HH:MM:SS.sssZ], for a year beyond 9999
    of the shape [+YYYYYY-MM-DD HH:MM:SS.sssZ]. *)
Theorem dateToRFC3339_shape (d : Date) (t : Z) :
  getTime d = Ms t ->
  exists s : string,
    dateToRFC3339 d = Effect.succeed s
    /\ (canonicalShape s = true
        <-> -62167219200000 <= t <= 253402300799999)
    /\ (YearFromTime t < 0 -> matches (expandedPattern "-") s = true)
    /\ (9999 < YearFromTime t -> matches (expandedPattern "+") s = true).
Proof.
  intros Hd. destruct d as [v]. cbn [getTime] in Hd. subst v.
  exists (canonical t). split; [apply dateToRFC3339_valid|].
  rewrite <- four_digit_years, canonical_fields.
  unfold yearString, canonicalShape.
  change canonicalPattern with (List.repeat Dg 4 ++ tailPattern)%list.
  change (expandedPattern "-")
    with (Ch "-"%char :: List.repeat Dg 6 ++ tailPattern)%list.
  change (expandedPattern "+")
    with (Ch "+"%char :: List.repeat Dg 6 ++ tailPattern)%list.
  destruct (Z.leb_spec 0 (YearFromTime t)) as [H0 | H0];
    [destruct (Z.leb_spec (YearFromTime t) 9999) as [H1 | H1]|]; cbn [andb].
  - rewrite matches_year_tail. repeat split; intros; lia.
  - destruct (Z.ltb_spec (YearFromTime t) 0); [lia|].
    cbn [append]. rewrite matches_ch, matches_year_tail.
    change (List.repeat Dg 4 ++ tailPattern)%list
      with (Dg :: List.repeat Dg 3 ++ tailPattern)%list.
    rewrite matches_nondigit by reflexivity.
    repeat split; intros; try lia; try discriminate.
  - destruct (Z.ltb_spec (YearFromTime t) 0); [|lia].
    cbn [append]. rewrite matches_ch, matches_year_tail.
    change (List.repeat Dg 4 ++ tailPattern)%list
      with (Dg :: List.repeat Dg 3 ++ tailPattern)%list.
    rewrite matches_nondigit by reflexivity.
    repeat split; intros; try lia; try discriminate.
Qed.

Lemma dateToRFC3339_shape_witness :
  exists s : string,
    dateToRFC3339 (mkDate (Ms 1743165045000)) = Effect.succeed s
    /\ canonicalShape s = true.
Proof.
  destruct (dateToRFC3339_shape (mkDate (Ms 1743165045000)) 1743165045000
              eq_refl) as (s & Hs & Hshape & _).
  exists s. split; [exact Hs | apply Hshape; lia].
Defined.

(* ================================================================== *)
(** * Part IV: further properties of the four functions *)
(* ================================================================== *)

Import EcmaFacts FieldFacts SerializerFacts.

(** ** Composition lemmas *)

Module ComposeFacts.

Lemma replaceAll_same (c : ascii) (s : string) : replaceAll c c s = s.
Proof.
  induction s as [|x s IH]; cbn [replaceAll]; [reflexivity|].
  rewrite IH. now destruct (Ascii.eqb_spec x c) as [-> |].
Qed.

(** Joining the segments with the separator they were split on gives the
    string back. *)
Lemma join_split_same (c : ascii) (s : string) :
  join (String c EmptyString) (split c s) = s.
Proof. rewrite join_split. apply replaceAll_same. Qed.

(** Two segments: the string is the first, the separator, the second, and
    neither segment holds the separator. *)
Lemma split_two (c : ascii) (s a b : string) :
  split c s = [a; b] ->
  s = (a ++ String c b)%string /\ count c a = O /\ count c b = O.
Proof.
  intros H.
  pose proof (join_split_same c s) as Hj. rewrite H in Hj.
  cbn [join concat] in Hj. cbn [append] in Hj.
  pose proof (length_split c s) as Hl. rewrite H in Hl. cbn [List.length] in Hl.
  split; [now symmetry|].
  rewrite <- Hj, count_app in Hl. cbn [count] in Hl.
  rewrite Ascii.eqb_refl in Hl. lia.
Qed.

Lemma truthy_replaceAll (a b : ascii) (s : string) :
  truthy (replaceAll a b s) = truthy s.
Proof. now destruct s. Qed.

Lemma count_replaceAll_target (a b : ascii) (s : string) :
  count a s <> O -> count b (replaceAll a b s) <> O.
Proof.
  induction s as [|x s IH]; cbn [count replaceAll]; [tauto|].
  destruct (Ascii.eqb_spec x a) as [-> | Hx].
  - intros _. rewrite Ascii.eqb_refl. discriminate.
  - intros H. destruct (Ascii.eqb x b); [discriminate | now apply IH].
Qed.

(** Without a ['T'] in the input, the parser constructs the same date
    from the input and from its ['T']-separated rewriting. *)
Lemma formattedDate_replaceAll (s : string) :
  count "T" s = O ->
  formattedDate (replaceAll " " "T" s) = formattedDate s.
Proof.
  intros HT. unfold formattedDate at 2.
  rewrite !indexOf_eqb, HT, join_split. cbn [Nat.eqb andb].
  rewrite andb_true_r.
  destruct (Nat.eqb_spec (count " " s) 0) as [Hs | Hs]; cbn [negb].
  - rewrite replaceAll_absent by assumption.
    unfold formattedDate. rewrite !indexOf_eqb, Hs. reflexivity.
  - unfold formattedDate. rewrite !indexOf_eqb.
    pose proof (count_replaceAll_target " " "T" s Hs) as H.
    destruct (Nat.eqb_spec (count "T" (replaceAll " " "T" s)) 0);
      [contradiction|].
    now rewrite andb_false_r.
Qed.

(** The parser's result, by cases on the constructed date. *)
Lemma rfc3339ToDate_cases (fallback : string -> TimeValue) (s : string) :
  truthy s = true ->
  (isNaN (getTime (newDate fallback (formattedDate s))) = true
   /\ rfc3339ToDate fallback s
      = Effect.fail {| type := dateInvalidFormat;
                       message := invalidMessage s |})
  \/ (exists t : Z,
        - maxTime <= t <= maxTime
        /\ newDate fallback (formattedDate s) = mkDate (Ms t)
        /\ rfc3339ToDate fallback s = Effect.succeed (mkDate (Ms t))).
Proof.
  intros Hs. unfold rfc3339ToDate.
  rewrite rfc3339ToDate_nonempty by assumption. cbv zeta. cbn [Traced.value].
  pose proof (newDate_wf fallback (formattedDate s)) as Hwf.
  destruct (newDate fallback (formattedDate s)) as [[|t]];
    cbn [getTime isNaN]; [left; split; reflexivity|].
  right. exists t. split; [exact Hwf | split; reflexivity].
Qed.

Lemma rfc3339ToDate_empty_fail (fallback : string -> TimeValue) :
  rfc3339ToDate fallback EmptyString
  = Effect.fail {| type := dateInvalidFormat;
                   message := "The provided date string is empty." |}.
Proof. reflexivity. Qed.

End ComposeFacts.

Import ComposeFacts.

(** ** What the parser and the validator can return *)

(** X2: [rfc3339ToDate] never throws, fails with [dateInvalidFormat] only,
    calls the [Date] constructor at most once (not at all exactly on the
    empty string), and a date it succeeds with is the constructed one and
    is valid: its time value is not [NaN] and lies in the time range. *)
Theorem rfc3339ToDate_outcomes (fallback : string -> TimeValue) (s : string) :
  (forall m : string, rfc3339ToDate fallback s <> Effect.die m)
  /\ (forall e : Error,
        rfc3339ToDate fallback s = Effect.fail e -> type e = dateInvalidFormat)
  /\ (forall d : Date,
        rfc3339ToDate fallback s = Effect.succeed d ->
        d = newDate fallback (formattedDate s) /\ valid_date d)
  /\ (List.length (Traced.constructed (rfc3339ToDate_traced fallback s))
      <= 1)%nat
  /\ (Traced.constructed (rfc3339ToDate_traced fallback s) = [] <->
      s = EmptyString).
Proof.
  destruct (truthy s) eqn:Hs.
  - assert (Hne : s <> EmptyString) by (intros ->; discriminate).
    rewrite rfc3339ToDate_nonempty by assumption. cbv zeta.
    cbn [Traced.constructed List.length].
    assert (Hnil : [formattedDate s] = [] <-> s = EmptyString)
      by (split; [discriminate | contradiction]).
    destruct (rfc3339ToDate_cases fallback s Hs)
      as [[Hn ->] | (t & Ht & Hd & ->)].
    + split; [discriminate|]. split; [|split; [discriminate | split; [lia | exact Hnil]]].
      intros e H. now injection H as <-.
    + split; [discriminate|]. split; [discriminate|].
      split; [|split; [lia | exact Hnil]].
      intros d H. injection H as <-. split; [now symmetry|].
      split; [exact Ht | reflexivity].
  - destruct s; [|discriminate]. rewrite rfc3339ToDate_empty_fail.
    cbn [rfc3339ToDate_traced truthy negb Traced.ret Traced.constructed
           List.length].
    split; [discriminate|]. split; [|split; [discriminate | split; [lia | tauto]]].
    intros e H. now injection H as <-.
Qed.

(** X3: [assertRFC3339Date] never throws and never fails with
    [dateInvalid]: either [rfc3339ToDate] fails and the validator fails
    with that same [dateInvalidFormat] error, or [rfc3339ToDate] succeeds
    with a valid date and the validator succeeds with the string
    [dateToRFC3339] gives for that date. *)
Theorem assertRFC3339Date_outcomes (fallback : string -> TimeValue) (s : string) :
  (exists e : Error,
      rfc3339ToDate fallback s = Effect.fail e
      /\ assertRFC3339Date fallback s = Effect.fail e
      /\ type e = dateInvalidFormat)
  \/ (exists (d : Date) (r : string),
        valid_date d
        /\ rfc3339ToDate fallback s = Effect.succeed d
        /\ dateToRFC3339 d = Effect.succeed r
        /\ assertRFC3339Date fallback s = Effect.succeed r).
Proof.
  unfold assertRFC3339Date. destruct (truthy s) eqn:Hs.
  - destruct (rfc3339ToDate_cases fallback s Hs)
      as [[Hn ->] | (t & Ht & Hd & ->)]; cbn [Effect.flatMap].
    + left. eexists. repeat split.
    + right. exists (mkDate (Ms t)), (canonical t).
      rewrite dateToRFC3339_valid.
      split; [split; [exact Ht | reflexivity] | repeat split].
  - destruct s; [|discriminate]. rewrite rfc3339ToDate_empty_fail.
    left. eexists. repeat split.
Qed.

(** X4: normalizing keeps the instant: when [assertRFC3339Date] succeeds
    on [s] with [r], [rfc3339ToDate] gives on [r] the very date it gives
    on [s]. *)
Theorem assertRFC3339Date_same_instant
  (fallback : string -> TimeValue) (s r : string) :
  assertRFC3339Date fallback s = Effect.succeed r ->
  rfc3339ToDate fallback r = rfc3339ToDate fallback s.
Proof.
  unfold assertRFC3339Date.
  destruct (rfc3339ToDate fallback s) as [d | e | m] eqn:E;
    cbn [Effect.flatMap]; try discriminate.
  apply rfc3339ToDate_succeed in E.
  destruct (valid_date_inv d E) as (t & -> & Ht).
  rewrite dateToRFC3339_valid. intros H. injection H as <-.
  now apply rfc3339ToDate_canonical.
Qed.

Lemma assertRFC3339Date_same_instant_witness :
  rfc3339ToDate strictEngine "2025-03-28 12:30:45.000Z"
  = rfc3339ToDate strictEngine "2025-03-28T12:30:45.000Z".
Proof.
  apply (assertRFC3339Date_same_instant strictEngine
           "2025-03-28T12:30:45.000Z" "2025-03-28 12:30:45.000Z").
  vm_compute. reflexivity.
Defined.

(** X5: [dateToRFC3339] loses nothing: two valid dates with the same
    canonical string have the same time value. *)
Theorem dateToRFC3339_injective (d1 d2 : Date) :
  valid_date d1 -> valid_date d2 ->
  dateToRFC3339 d1 = dateToRFC3339 d2 ->
  getTime d1 = getTime d2.
Proof.
  intros H1 H2.
  destruct (valid_date_inv d1 H1) as (t1 & -> & Ht1).
  destruct (valid_date_inv d2 H2) as (t2 & -> & Ht2).
  rewrite !dateToRFC3339_valid. intros H. injection H as H.
  pose proof (rfc3339ToDate_canonical strictEngine t1 Ht1) as E1.
  rewrite H, (rfc3339ToDate_canonical strictEngine t2 Ht2) in E1.
  now injection E1 as <-.
Qed.

Lemma dateToRFC3339_injective_witness :
  getTime (mkDate (Ms 1743165045000)) = getTime (mkDate (Ms 1743165045000)).
Proof.
  exact (dateToRFC3339_injective _ _ valid_date_2025 valid_date_2025 eq_refl).
Defined.

(** ** Separators *)

(** X6: the separator does not matter to the parser: on an input without
    ['T'], [rfc3339ToDate] succeeds with a date exactly when it succeeds
    with that date on the input with its spaces replaced by ['T'], and
    [assertRFC3339Date] succeeds with the same string on both. *)
Theorem rfc3339ToDate_separator_insensitive
  (fallback : string -> TimeValue) (s : string) :
  ~ contains "T" s ->
  (forall d : Date,
      rfc3339ToDate fallback s = Effect.succeed d
      <-> rfc3339ToDate fallback (replaceAll " " "T" s) = Effect.succeed d)
  /\ (forall r : string,
        assertRFC3339Date fallback s = Effect.succeed r
        <-> assertRFC3339Date fallback (replaceAll " " "T" s)
            = Effect.succeed r).
Proof.
  intros HT.
  assert (HT0 : count "T" s = O)
    by (unfold contains in HT; destruct (count "T" s); [reflexivity | now destruct HT]).
  assert (H : forall d : Date,
             rfc3339ToDate fallback s = Effect.succeed d
             <-> rfc3339ToDate fallback (replaceAll " " "T" s)
                 = Effect.succeed d).
  { intros d. destruct (truthy s) eqn:Hs.
    - unfold rfc3339ToDate.
      rewrite (rfc3339ToDate_nonempty fallback s) by assumption.
      rewrite (rfc3339ToDate_nonempty fallback (replaceAll " " "T" s))
        by now rewrite truthy_replaceAll.
      cbv zeta. cbn [Traced.value].
      rewrite formattedDate_replaceAll by assumption.
      destruct (isNaN (getTime (newDate fallback (formattedDate s))));
        [split; discriminate | tauto].
    - destruct s; [cbn [replaceAll]; tauto | discriminate]. }
  split; [exact H|].
  intros r. unfold assertRFC3339Date.
  destruct (rfc3339ToDate fallback s) as [d | e | m];
    destruct (rfc3339ToDate fallback (replaceAll " " "T" s))
      as [d' | e' | m'];
    cbn [Effect.flatMap]; try (split; discriminate).
  - pose proof (proj1 (H d) eq_refl) as X. injection X as <-. tauto.
  - pose proof (proj1 (H d) eq_refl) as X. discriminate X.
  - pose proof (proj1 (H d) eq_refl) as X. discriminate X.
  - pose proof (proj2 (H d') eq_refl) as X. discriminate X.
  - pose proof (proj2 (H d') eq_refl) as X. discriminate X.
Qed.

Lemma rfc3339ToDate_separator_insensitive_witness :
  rfc3339ToDate strictEngine "2025-03-28 12:30:45.000Z"
  = Effect.succeed (mkDate (Ms 1743165045000))
  <-> rfc3339ToDate strictEngine
        (replaceAll " " "T" "2025-03-28 12:30:45.000Z")
      = Effect.succeed (mkDate (Ms 1743165045000)).
Proof.
  refine (proj1 (rfc3339ToDate_separator_insensitive strictEngine
                   "2025-03-28 12:30:45.000Z" _) _).
  unfold contains. intros H. apply H. vm_compute. reflexivity.
Defined.

(** X7: whatever the serializer prints, the parts [dateToRFC3339Parts]
    succeeds with are exactly two, they hold no separator, and joined by
    the separator in use (['T'], or a space when the output does not hold
    exactly one ['T']) they are the serializer's output: nothing of it is
    dropped or added. *)
Theorem dateToRFC3339Parts_with_segments
  (serialize : Z -> string) (d : Date) (parts : list string) :
  dateToRFC3339Parts_with serialize d = Effect.succeed parts ->
  exists (t : Z) (a b : string),
    getTime d = Ms t /\ parts = [a; b]
    /\ ((serialize t = (a ++ "T" ++ b)%string
         /\ count "T" a = O /\ count "T" b = O)
        \/ (serialize t = (a ++ " " ++ b)%string
            /\ count " " a = O /\ count " " b = O
            /\ count "T" (serialize t) <> 1%nat)).
Proof.
  unfold dateToRFC3339Parts_with.
  destruct (getTime d) as [|t]; [discriminate|]. cbv zeta.
  rewrite (length_two "T").
  destruct (Nat.eqb_spec (count "T" (serialize t)) 1) as [HT | HT];
    cbn [negb].
  - rewrite length_two, HT. cbn [Nat.eqb negb].
    intros H. injection H as <-.
    pose proof (length_split "T" (serialize t)) as Hl. rewrite HT in Hl.
    destruct (split "T" (serialize t)) as [|a [|b [|c l]]] eqn:E;
      try discriminate Hl.
    exists t, a, b. split; [reflexivity|]. split; [reflexivity|].
    left. exact (split_two "T" _ a b E).
  - rewrite length_two.
    destruct (Nat.eqb_spec (count " " (serialize t)) 1) as [Hs | Hs];
      cbn [negb]; [|discriminate].
    intros H. injection H as <-.
    pose proof (length_split " " (serialize t)) as Hl. rewrite Hs in Hl.
    destruct (split " " (serialize t)) as [|a [|b [|c l]]] eqn:E;
      try discriminate Hl.
    exists t, a, b. split; [reflexivity|]. split; [reflexivity|].
    right. destruct (split_two " " _ a b E) as (H1 & H2 & H3).
    repeat split; assumption.
Qed.

Lemma dateToRFC3339Parts_with_segments_witness :
  exists (t : Z) (a b : string),
    getTime (mkDate (Ms 0)) = Ms t
    /\ ["1970-01-01"; "00:00:00.000Z"] = [a; b]
    /\ ((toISOString t = (a ++ "T" ++ b)%string
         /\ count "T" a = O /\ count "T" b = O)
        \/ (toISOString t = (a ++ " " ++ b)%string
            /\ count " " a = O /\ count " " b = O
            /\ count "T" (toISOString t) <> 1%nat)).
Proof.
  apply (dateToRFC3339Parts_with_segments toISOString (mkDate (Ms 0))
           ["1970-01-01"; "00:00:00.000Z"]).
  vm_compute. reflexivity.
Defined.

(** X8: the string [dateToRFC3339] gives for a valid date splits on its
    space into exactly the two parts [dateToRFC3339Parts] gives, both non
    empty and free of spaces and of ['T']: the canonical string holds one
    space and no ['T']. *)
Theorem dateToRFC3339_split (d : Date) (t : Z) :
  getTime d = Ms t ->
  exists (a b r : string),
    dateToRFC3339Parts d = Effect.succeed [a; b]
    /\ dateToRFC3339 d = Effect.succeed r
    /\ split " " r = [a; b]
    /\ count " " r = 1%nat /\ count "T" r = O
    /\ a <> EmptyString /\ b <> EmptyString.
Proof.
  intros Hd. destruct d as [v]. cbn [getTime] in Hd. subst v.
  exists (datePart t), (timePart t), (canonical t).
  rewrite dateToRFC3339Parts_valid, dateToRFC3339_valid.
  pose proof (canonical_counts t) as [Hs HT].
  split; [reflexivity|]. split; [reflexivity|]. split.
  { unfold canonical.
    change (" " ++ timePart t)%string with (String " " (timePart t)).
    rewrite split_app by apply datePart_no_space.
    now rewrite split_absent by apply timePart_no_space. }
  split; [exact Hs|]. split; [exact HT|]. split.
  - unfold datePart. intros H.
    apply (f_equal (count "-")) in H. rewrite !count_app in H.
    cbn [count append] in H. rewrite Ascii.eqb_refl in H. cbn in H. lia.
  - unfold timePart. intros H.
    apply (f_equal (count ":")) in H. rewrite !count_app in H.
    cbn [count append] in H. rewrite Ascii.eqb_refl in H. cbn in H. lia.
Qed.

Lemma dateToRFC3339_split_witness :
  exists (a b r : string),
    dateToRFC3339Parts (mkDate (Ms 0)) = Effect.succeed [a; b]
    /\ dateToRFC3339 (mkDate (Ms 0)) = Effect.succeed r
    /\ split " " r = [a; b]
    /\ count " " r = 1%nat /\ count "T" r = O
    /\ a <> EmptyString /\ b <> EmptyString.
Proof. exact (dateToRFC3339_split (mkDate (Ms 0)) 0 eq_refl). Defined.

(** ** Strings of the complete UTC form *)

Module FormatFacts.
Import Format.

Lemma digitValue_inv (c : ascii) (d : Z) :
  digitValue c = Some d -> c = digitChar d /\ 0 <= d <= 9.
Proof.
  destruct c as [[] [] [] [] [] [] [] []]; intros H;
    try discriminate H; injection H as <-; split; (reflexivity || lia).
Qed.

(** What [digits] reads is a field: [w] digit characters that print the
    number read. *)
Lemma digits_inv (w : nat) :
  forall (acc : Z) (s : string) (n : Z) (r : string),
    digits w acc s = Some (n, r) ->
    exists k : Z,
      0 <= k < 10 ^ Z.of_nat w /\ n = acc * 10 ^ Z.of_nat w + k
      /\ forall hi : Z, s = (pad w (hi * 10 ^ Z.of_nat w + k) ++ r)%string.
Proof.
  induction w as [|w IH]; intros acc s n r H.
  - cbn [digits] in H. injection H as <- <-.
    exists 0. cbn. split; [lia|]. split; [lia | reflexivity].
  - cbn [digits] in H. destruct s as [|c s]; [discriminate|].
    destruct (digitValue c) as [d|] eqn:Hc; [|discriminate].
    apply digitValue_inv in Hc. destruct Hc as [-> Hd].
    destruct (IH _ _ _ _ H) as (k & Hk & Hn & Hs).
    rewrite Nat2Z.inj_succ, Z.pow_succ_r by lia.
    set (P := 10 ^ Z.of_nat w) in *.
    assert (HP : 0 < P) by (apply Z.pow_pos_nonneg; lia).
    exists (d * P + k). split; [nia|]. split; [lia|].
    intros hi. cbn [pad append]. fold P.
    replace (hi * (10 * P) + (d * P + k)) with ((hi * 10 + d) * P + k)
      by lia.
    rewrite <- (Hs (hi * 10 + d)). f_equal. f_equal.
    rewrite Z.div_add_l, (Z.div_small k P) by lia.
    Z.div_mod_to_equations. lia.
Qed.

Lemma digits_inv_pad (w : nat) (s : string) (n : Z) (r : string) :
  digits w 0 s = Some (n, r) ->
  0 <= n < 10 ^ Z.of_nat w /\ s = (pad w n ++ r)%string.
Proof.
  intros H. destruct (digits_inv w 0 s n r H) as (k & Hk & Hn & Hs).
  assert (n = k) by lia. subst k. split; [exact Hk|].
  specialize (Hs 0). now rewrite Z.mul_0_l, Z.add_0_l in Hs.
Qed.

Lemma expect_inv (c : ascii) (s r : string) (u : unit) :
  expect c s = Some (u, r) -> s = String c r.
Proof.
  unfold expect. destruct s as [|a s]; [discriminate|].
  destruct (Ascii.eqb_spec a c) as [-> |]; [|discriminate].
  intros H. now injection H as _ <-.
Qed.

Lemma year_other (c : ascii) (r : string) :
  c <> "+"%char -> c <> "-"%char ->
  year (String c r) = digits 4 0 (String c r).
Proof.
  destruct c as [[] [] [] [] [] [] [] []]; intros H1 H2;
    try reflexivity; congruence.
Qed.

(** The three ways a year is written. *)
Lemma year_inv (s : string) (y : Z) (r : string) :
  year s = Some (y, r) ->
  (0 <= y <= 9999 /\ s = (pad 4 y ++ r)%string)
  \/ (0 <= y <= 999999 /\ s = String "+" (pad 6 y ++ r))
  \/ (-999999 <= y < 0 /\ s = String "-" (pad 6 (- y) ++ r)).
Proof.
  destruct s as [|c s]; [discriminate|].
  destruct (Ascii.eqb_spec c "+") as [-> | Hp];
    [|destruct (Ascii.eqb_spec c "-") as [-> | Hm]].
  - cbn [year]. intros H. apply digits_inv_pad in H.
    destruct H as [Hy ->]. right. left. cbn in Hy. split; [lia | reflexivity].
  - cbn [year]. destruct (digits 6 0 s) as [[y' r']|] eqn:E; [|discriminate].
    destruct (Z.eqb_spec y' 0); [discriminate|].
    intros H. injection H as <- <-.
    apply digits_inv_pad in E. destruct E as [Hy ->].
    right. right. cbn in Hy. rewrite Z.opp_involutive.
    split; [lia | reflexivity].
  - rewrite year_other by assumption. intros H.
    apply digits_inv_pad in H. destruct H as [Hy ->].
    left. cbn in Hy. split; [lia | reflexivity].
Qed.

Ltac option_step H :=
  match type of H with
  | match ?e with Some _ => _ | None => _ end = Some _ =>
      let E := fresh "E" in
      destruct e as [[? ?]|] eqn:E; [|discriminate H]
  end.

(** A string the reader accepts is a year in one of its three forms,
    followed by the six fixed-width fields, all in range. *)
Lemma parseDateTime_inv (s : string) (v : TimeValue) :
  parseDateTime s = Some v ->
  exists (ys : string) (f : Fields),
    s = (ys ++ fields_tail "T" f)%string
    /\ ((0 <= f_year f <= 9999 /\ ys = pad 4 (f_year f))
        \/ (0 <= f_year f <= 999999 /\ ys = String "+" (pad 6 (f_year f)))
        \/ (-999999 <= f_year f < 0
            /\ ys = String "-" (pad 6 (- f_year f))))
    /\ fields_ok f
    /\ v = TimeClip (Ms (fields_time f)).
Proof.
  unfold parseDateTime. intros H.
  do 14 option_step H.
  match type of H with
  | match ?x with EmptyString => _ | String _ _ => _ end = _ =>
      destruct x; [|discriminate H]
  end.
  match type of H with (if ?c then _ else _) = _ =>
    destruct c eqn:Hc; [|discriminate H] end.
  injection H as <-.
  rewrite !andb_true_iff, !Z.leb_le in Hc.
  repeat match goal with
         | E : expect _ _ = Some _ |- _ => apply expect_inv in E
         end.
  repeat match goal with
         | E : digits _ 0 _ = Some _ |- _ =>
             apply digits_inv_pad in E; destruct E as [? ?]
         end.
  apply year_inv in E. subst.
  match goal with
  | |- context [MakeDay ?y (?mo - 1) ?d] =>
      match goal with
      | |- context [MakeTime ?h ?mi ?se ?ms] =>
          set (f := mkFields y mo d h mi se ms)
      end
  end.
  assert (Hok : fields_ok f).
  { unfold fields_ok, f. cbn [f_year f_month f_day f_hour f_min f_sec f_ms].
    cbn in *. lia. }
  destruct E as [[Hy ->] | [[Hy ->] | [Hy ->]]].
  - exists (pad 4 (f_year f)), f. repeat split; try apply Hok. now left.
  - exists (String "+" (pad 6 (f_year f))), f.
    repeat split; try apply Hok. right. now left.
  - exists (String "-" (pad 6 (- f_year f))), f.
    repeat split; try apply Hok. right. now right.
Qed.

End FormatFacts.

(** ** The calendar, read backwards *)

Module CalendarFacts.
Import Format FormatFacts.

Lemma leapOfYear_cases (y : Z) :
  (leapOfYear y = 0 /\ DaysInYear y = 365)
  \/ (leapOfYear y = 1 /\ DaysInYear y = 366).
Proof.
  unfold leapOfYear.
  destruct (DaysInYear_cases y) as [H | H]; rewrite H; cbn; auto.
Qed.

Lemma month_cases (m : Z) :
  0 <= m <= 11 ->
  m = 0 \/ m = 1 \/ m = 2 \/ m = 3 \/ m = 4 \/ m = 5 \/ m = 6 \/ m = 7
  \/ m = 8 \/ m = 9 \/ m = 10 \/ m = 11.
Proof. lia. Qed.

(** The year is determined by the day. *)
Lemma YearFromTime_unique (t y : Z) :
  DayFromYear y <= Day t < DayFromYear (y + 1) -> YearFromTime t = y.
Proof.
  intros H. pose proof (YearFromTime_spec t) as HY.
  destruct (Z.lt_trichotomy (YearFromTime t) y) as [Hlt | [Heq | Hgt]];
    [|exact Heq|].
  - pose proof (DayFromYear_mono (YearFromTime t + 1) y). lia.
  - pose proof (DayFromYear_mono (y + 1) (YearFromTime t)). lia.
Qed.

(** The fields of the instant made of in-range fields are those
    fields. *)
Lemma FromTime_Make (y m d h mi se ms : Z) :
  0 <= m <= 11 -> 1 <= d <= daysInMonth m (leapOfYear y) ->
  0 <= h <= 23 -> 0 <= mi <= 59 -> 0 <= se <= 59 -> 0 <= ms <= 999 ->
  let t := MakeDate (MakeDay y m d) (MakeTime h mi se ms) in
  YearFromTime t = y /\ MonthFromTime t = m /\ DateFromTime t = d
  /\ HourFromTime t = h /\ MinFromTime t = mi /\ SecFromTime t = se
  /\ msFromTime t = ms.
Proof.
  intros Hm Hd Hh Hmi Hse Hms t.
  assert (Hl : leapOfYear y = 0 \/ leapOfYear y = 1)
    by (destruct (leapOfYear_cases y); tauto).
  set (l := leapOfYear y) in *.
  set (o := daysBeforeMonth m l + d - 1).
  assert (Ho : 0 <= o < 365 + l /\ daysBeforeMonth m l <= o
               /\ o < daysBeforeMonth m l + daysInMonth m l).
  { subst o. apply month_cases in Hm.
    repeat (destruct Hm as [-> | Hm];
            [cbn [daysBeforeMonth daysInMonth] in *; lia|]).
    subst m. cbn [daysBeforeMonth daysInMonth] in *. lia. }
  assert (Hday : MakeDay y m d = DayFromYear y + o).
  { unfold MakeDay. rewrite Z.div_small, Z.mod_small, Z.add_0_r by lia.
    subst o l. lia. }
  assert (Htime : 0 <= MakeTime h mi se ms < msPerDay)
    by (unfold MakeTime, msPerHour, msPerMinute, msPerSecond, msPerDay; lia).
  assert (HDay : Day t = DayFromYear y + o).
  { subst t. unfold MakeDate, Day. rewrite Hday.
    set (D := DayFromYear y + o). clearbody D.
    unfold msPerDay in *. Z.div_mod_to_equations. lia. }
  assert (HY : YearFromTime t = y).
  { apply YearFromTime_unique. rewrite HDay, DayFromYear_succ.
    destruct (leapOfYear_cases y) as [[E ->] | [E ->]]; fold l in E; lia. }
  assert (HL : InLeapYear t = l) by (unfold InLeapYear; now rewrite HY).
  assert (HW : DayWithinYear t = o)
    by (unfold DayWithinYear; rewrite HY, HDay; lia).
  assert (HM : MonthFromTime t = m).
  { unfold MonthFromTime. rewrite HW, HL. clear HW HL HY HDay Hday.
    destruct Ho as (_ & Ho1 & Ho2). clearbody o. apply month_cases in Hm.
    repeat (destruct Hm as [-> | Hm];
            [cbn [daysBeforeMonth daysInMonth] in *; split_ltb; lia|]).
    subst m. cbn [daysBeforeMonth daysInMonth] in *. split_ltb; lia. }
  split; [exact HY|]. split; [exact HM|]. split.
  { unfold DateFromTime. rewrite HM, HW, HL. subst o.
    clear HW HL HY HDay Hday HM Ho. apply month_cases in Hm.
    repeat (destruct Hm as [-> | Hm]; [cbn [daysBeforeMonth]; lia|]).
    subst m. cbn [daysBeforeMonth]. lia. }
  subst t. rewrite Hday. set (D := DayFromYear y + o). clearbody D.
  unfold HourFromTime, MinFromTime, SecFromTime, msFromTime, MakeDate,
    MakeTime, msPerHour, msPerMinute, msPerSecond, msPerDay.
  repeat split; Z.div_mod_to_equations; lia.
Qed.

(** With a four-digit year the instant lies within the time range. *)
Lemma fields_time_range (f : Fields) :
  fields_ok f -> 0 <= f_year f <= 9999 ->
  - maxTime <= fields_time f <= maxTime.
Proof.
  intros (Hmo & Hd & Hh & Hmi & Hse & Hms) Hy. unfold fields_time.
  assert (Hl : leapOfYear (f_year f) <= 1)
    by (destruct (leapOfYear_cases (f_year f)) as [[-> _] | [-> _]]; lia).
  assert (Hdim : daysInMonth (f_month f - 1) (leapOfYear (f_year f)) <= 31)
    by (apply daysInMonth_le; lia).
  assert (Hbefore : 0 <= daysBeforeMonth (f_month f - 1)
                             (leapOfYear (f_year f)) <= 335).
  { assert (Hl0 : 0 <= leapOfYear (f_year f))
      by (destruct (leapOfYear_cases (f_year f)) as [[-> _] | [-> _]]; lia).
    assert (Hm : 0 <= f_month f - 1 <= 11) by lia.
    apply month_cases in Hm.
    repeat (destruct Hm as [-> | Hm]; [cbn [daysBeforeMonth]; lia|]).
    rewrite Hm. cbn [daysBeforeMonth]. lia. }
  unfold MakeDate, MakeDay, MakeTime, msPerHour, msPerMinute, msPerSecond,
    msPerDay, maxTime.
  rewrite Z.div_small, Z.mod_small, Z.add_0_r by lia.
  pose proof (DayFromYear_mono 0 (f_year f)) as H0.
  pose proof (DayFromYear_mono (f_year f) 9999) as H1.
  change (DayFromYear 0) with (-719528) in H0.
  change (DayFromYear 9999) with 2932532 in H1.
  lia.
Qed.

End CalendarFacts.

(** ** Both separators, on every engine *)

Module AcceptFacts.
Import Format FormatFacts CalendarFacts.

Lemma fields_tail_split (sep : ascii) (f : Fields) :
  fields_tail sep f = (dateTail f ++ String sep (timeTail f))%string.
Proof.
  unfold fields_tail, afterYear, dateTail, timeTail. cbn [append].
  now rewrite !append_assoc.
Qed.

Lemma count_dateTail (c : ascii) (f : Fields) :
  digitValue c = None -> c <> "-"%char -> count c (dateTail f) = O.
Proof.
  intros Hc Hm. unfold dateTail. cbn [count].
  rewrite count_app. cbn [count]. rewrite !count_pad by assumption.
  destruct (Ascii.eqb_spec "-"%char c); [congruence | reflexivity].
Qed.

Lemma count_timeTail (c : ascii) (f : Fields) :
  digitValue c = None -> c <> ":"%char -> c <> "."%char -> c <> "Z"%char ->
  count c (timeTail f) = O.
Proof.
  intros Hc H1 H2 H3. unfold timeTail.
  repeat (rewrite count_app; cbn [count]).
  rewrite !count_pad by assumption.
  destruct (Ascii.eqb_spec ":"%char c); [congruence|].
  destruct (Ascii.eqb_spec "."%char c); [congruence|].
  destruct (Ascii.eqb_spec "Z"%char c); [congruence | reflexivity].
Qed.

Lemma count_year_form (c : ascii) (ys : string) (y : Z) :
  year_form ys y ->
  digitValue c = None -> c <> "-"%char -> c <> "+"%char ->
  count c ys = O.
Proof.
  intros [[_ ->] | [[_ ->] | [_ ->]]] Hc Hm Hp; cbn [count].
  - now apply count_pad.
  - destruct (Ascii.eqb_spec "+"%char c); [congruence | now apply count_pad].
  - destruct (Ascii.eqb_spec "-"%char c); [congruence | now apply count_pad].
Qed.

(** An accepted string, seen as prefix, separator and suffix. *)
Lemma accepted_split (s : string) (v : TimeValue) :
  parseDateTime s = Some v ->
  exists (a b : string) (ys : string) (f : Fields),
    s = (a ++ String "T" b)%string
    /\ count "T" a = O /\ count " " a = O
    /\ count "T" b = O /\ count " " b = O
    /\ a = (ys ++ dateTail f)%string /\ b = timeTail f
    /\ year_form ys (f_year f) /\ fields_ok f
    /\ v = TimeClip (Ms (fields_time f)).
Proof.
  intros H. apply parseDateTime_inv in H.
  destruct H as (ys & f & -> & Hy & Hok & ->).
  exists (ys ++ dateTail f)%string, (timeTail f), ys, f.
  rewrite fields_tail_split, append_assoc.
  split; [reflexivity|].
  rewrite !count_app.
  rewrite !(count_year_form _ ys (f_year f) Hy)
    by (reflexivity || discriminate).
  rewrite !count_dateTail, !count_timeTail by (reflexivity || discriminate).
  repeat split; try reflexivity; try exact Hy; apply Hok.
Qed.

Lemma formattedDate_T (s : string) : count "T" s <> O -> formattedDate s = s.
Proof.
  intros H. unfold formattedDate. rewrite !indexOf_eqb.
  destruct (Nat.eqb_spec (count "T" s) 0); [contradiction|].
  now rewrite andb_false_r.
Qed.

Lemma TimeClip_Ms (x t : Z) :
  TimeClip (Ms x) = Ms t -> x = t /\ - maxTime <= t <= maxTime.
Proof.
  unfold TimeClip. destruct (Z.ltb_spec maxTime (Z.abs x)) as [Hx | Hx];
    [discriminate|].
  intros E. injection E as <-. lia.
Qed.

(** An accepted string and its space-separated form are parsed alike. *)
Lemma accepted_both_formats
  (fallback : string -> TimeValue) (s : string) (t : Z) :
  parseDateTime s = Some (Ms t) ->
  rfc3339ToDate fallback s = Effect.succeed (mkDate (Ms t))
  /\ rfc3339ToDate fallback (replaceFirst "T" " " s)
     = Effect.succeed (mkDate (Ms t)).
Proof.
  intros Hp.
  destruct (accepted_split s (Ms t) Hp)
    as (a & b & ys & f & Hs & HaT & Has & HbT & Hbs & _ & _ & _ & _ & Hv).
  symmetry in Hv. apply TimeClip_Ms in Hv. destruct Hv as [_ Ht].
  assert (Hnew : newDate fallback s = mkDate (Ms t)).
  { unfold newDate, parse. rewrite Hp. now rewrite TimeClip_in_range. }
  assert (H1 : rfc3339ToDate fallback s = Effect.succeed (mkDate (Ms t))).
  { assert (HT : count "T" s <> O).
    { rewrite Hs, count_app. cbn [count]. rewrite Ascii.eqb_refl. lia. }
    unfold rfc3339ToDate.
    rewrite rfc3339ToDate_nonempty by (apply (count_truthy "T"); exact HT).
    cbv zeta. cbn [Traced.value]. rewrite formattedDate_T by exact HT.
    now rewrite Hnew. }
  assert (H2 : rfc3339ToDate fallback (replaceFirst "T" " " s)
               = Effect.succeed (mkDate (Ms t))).
  { assert (Hr : replaceFirst "T" " " s = (a ++ String " " b)%string)
      by (rewrite Hs; now apply replaceFirst_app).
    assert (Hf : formattedDate (replaceFirst "T" " " s) = s).
    { rewrite Hr. unfold formattedDate. rewrite !indexOf_eqb, !count_app.
      cbn [count]. rewrite Ascii.eqb_refl.
      change (Ascii.eqb " " "T") with false. cbv iota.
      rewrite Has, HaT, HbT, join_split, replaceAll_app.
      cbn [Nat.add Nat.eqb negb andb replaceAll].
      rewrite Ascii.eqb_refl, !replaceAll_absent by assumption.
      now symmetry. }
    unfold rfc3339ToDate. rewrite rfc3339ToDate_nonempty.
    - cbv zeta. cbn [Traced.value]. now rewrite Hf, Hnew.
    - rewrite Hr. apply (count_truthy " "). rewrite count_app. cbn [count].
      rewrite Ascii.eqb_refl. lia. }
  split; assumption.
Qed.

(** Printing the instant of in-range fields gives the fields back. *)
Lemma toISOString_fields_time (f : Fields) :
  fields_ok f ->
  toISOString (fields_time f)
  = (yearString (f_year f) ++ fields_tail "T" f)%string.
Proof.
  intros (Hmo & Hd & Hh & Hmi & Hse & Hms).
  rewrite toISOString_fields. unfold fields_time.
  destruct (FromTime_Make (f_year f) (f_month f - 1) (f_day f) (f_hour f)
              (f_min f) (f_sec f) (f_ms f))
    as (-> & -> & -> & -> & -> & -> & ->); try assumption; try lia.
  replace (f_month f - 1 + 1) with (f_month f) by lia.
  reflexivity.
Qed.

Lemma matches_count (c : ascii) (p : list Pat) :
  digitValue c = None ->
  forall s : string, matches p s = true -> count c s = countPat c p.
Proof.
  intros Hc. induction p as [|[|a] p IH]; intros [|x s] H; cbn in H;
    try discriminate; cbn [count countPat]; [reflexivity| |].
  - destruct (digitValue x) eqn:Hx; [|discriminate].
    destruct (Ascii.eqb_spec x c) as [-> |]; [congruence | now apply IH].
  - apply andb_true_iff in H. destruct H as [Hxa H].
    apply Ascii.eqb_eq in Hxa. subst x.
    destruct (Ascii.eqb a c); now rewrite (IH s H).
Qed.

Lemma replaceFirst_inverse (a b : ascii) (s : string) :
  count b s = O -> replaceFirst b a (replaceFirst a b s) = s.
Proof.
  induction s as [|x s IH]; cbn [count replaceFirst]; [reflexivity|].
  destruct (Ascii.eqb_spec x b) as [-> | Hxb]; [discriminate|].
  intros H. destruct (Ascii.eqb_spec x a) as [-> | Hxa].
  - cbn [replaceFirst]. now rewrite Ascii.eqb_refl.
  - cbn [replaceFirst]. destruct (Ascii.eqb_spec x b); [contradiction|].
    now rewrite (IH H).
Qed.

End AcceptFacts.

Import Format FormatFacts CalendarFacts AcceptFacts.

(** X9: both formats are supported, on every engine: when the [Date]
    constructor reads [s] as the complete UTC form
    [YYYY-MM-DDTHH:mm:ss.sssZ] of an instant [t], [rfc3339ToDate] succeeds
    with [t] on [s] and on [s] with its ['T'] replaced by a space, and
    [assertRFC3339Date] gives the same canonical string for both. *)
Theorem rfc3339ToDate_both_formats
  (fallback : string -> TimeValue) (s : string) (t : Z) :
  parseDateTime s = Some (Ms t) ->
  rfc3339ToDate fallback s = Effect.succeed (mkDate (Ms t))
  /\ rfc3339ToDate fallback (replaceFirst "T" " " s)
     = Effect.succeed (mkDate (Ms t))
  /\ assertRFC3339Date fallback s = dateToRFC3339 (mkDate (Ms t))
  /\ assertRFC3339Date fallback (replaceFirst "T" " " s)
     = dateToRFC3339 (mkDate (Ms t)).
Proof.
  intros Hp.
  destruct (accepted_both_formats fallback s t Hp) as [H1 H2].
  split; [exact H1|]. split; [exact H2|].
  unfold assertRFC3339Date. rewrite H1, H2. cbn [Effect.flatMap].
  split; reflexivity.
Qed.


Lemma rfc3339ToDate_both_formats_witness :
  rfc3339ToDate strictEngine "2025-03-28T12:30:45.000Z"
  = Effect.succeed (mkDate (Ms 1743165045000))
  /\ rfc3339ToDate strictEngine
       (replaceFirst "T" " " "2025-03-28T12:30:45.000Z")
     = Effect.succeed (mkDate (Ms 1743165045000)).
Proof.
  destruct (rfc3339ToDate_both_formats strictEngine
              "2025-03-28T12:30:45.000Z" 1743165045000)
    as (H1 & H2 & _).
  - vm_compute. reflexivity.
  - split; [exact H1 | exact H2].
Defined.

(** X10: a canonical string is left as it is, on every engine: when [r]
    is of the shape [YYYY-MM-DD HH:MM:SS.sssZ] and its ['T']-separated
    form is read by the [Date] constructor as the complete UTC form (its
    fields name a day of the calendar and a time of day),
    [assertRFC3339Date] succeeds on [r] with [r] itself, and on the
    ['T']-separated form with [r]. *)
Theorem assertRFC3339Date_canonical_unchanged
  (fallback : string -> TimeValue) (r : string) :
  canonicalShape r = true ->
  parseDateTime (replaceFirst " " "T" r) <> None ->
  assertRFC3339Date fallback r = Effect.succeed r
  /\ assertRFC3339Date fallback (replaceFirst " " "T" r) = Effect.succeed r.
Proof.
  intros Hshape Hp.
  destruct (parseDateTime (replaceFirst " " "T" r)) as [v|] eqn:E;
    [clear Hp | now destruct Hp].
  assert (HrT : count "T" r = O)
    by (rewrite (matches_count "T" canonicalPattern eq_refl r Hshape);
        reflexivity).
  pose proof (replaceFirst_inverse " " "T" r HrT) as Hinv.
  set (s := replaceFirst " " "T" r) in *.
  destruct (accepted_split s v E)
    as (a & b & ys & f & Hs & HaT & Has & HbT & Hbs & Ha & Hb & Hy & Hok & Hv).
  assert (Hr : r = (a ++ String " " b)%string)
    by (rewrite <- Hinv, Hs; now apply replaceFirst_app).
  assert (Hfour : 0 <= f_year f <= 9999 /\ ys = pad 4 (f_year f)).
  { destruct Hy as [Hy | [[_ Hy] | [_ Hy]]]; [exact Hy| |];
      rewrite Hr, Ha, Hy in Hshape; cbn [append] in Hshape;
      unfold canonicalShape, canonicalPattern in Hshape;
      rewrite matches_nondigit in Hshape by reflexivity; discriminate. }
  destruct Hfour as [Hy4 Hys].
  pose proof (fields_time_range f Hok Hy4) as Ht.
  rewrite TimeClip_in_range in Hv by exact Ht. subst v.
  assert (Hiso : toISOString (fields_time f) = s).
  { rewrite toISOString_fields_time by exact Hok.
    unfold yearString.
    replace ((0 <=? f_year f) && (f_year f <=? 9999)) with true
      by (symmetry; apply andb_true_iff; split; apply Z.leb_le; lia).
    rewrite Hs, Ha, Hb, <- Hys, fields_tail_split.
    now rewrite append_assoc. }
  assert (Hcan : canonical (fields_time f) = r).
  { rewrite canonical_replaceFirst, Hiso. exact Hinv. }
  destruct (accepted_both_formats fallback s (fields_time f) E) as [H1 H2].
  rewrite Hinv in H2. unfold assertRFC3339Date.
  rewrite H1, H2. cbn [Effect.flatMap].
  rewrite dateToRFC3339_valid, Hcan. split; reflexivity.
Qed.

Lemma assertRFC3339Date_canonical_unchanged_witness :
  assertRFC3339Date strictEngine "2024-02-29 23:59:59.999Z"
  = Effect.succeed "2024-02-29 23:59:59.999Z"
  /\ assertRFC3339Date strictEngine
       (replaceFirst " " "T" "2024-02-29 23:59:59.999Z")
     = Effect.succeed "2024-02-29 23:59:59.999Z".
Proof.
  apply (assertRFC3339Date_canonical_unchanged strictEngine
           "2024-02-29 23:59:59.999Z").
  - vm_compute. reflexivity.
  - vm_compute. discriminate.
Defined.

(** ** Chronological and lexicographic order *)

Module OrderFacts.
Import Format.

Lemma ascii_compare_refl (c : ascii) : Ascii.compare c c = Eq.
Proof. unfold Ascii.compare. apply N.compare_refl. Qed.

Lemma compare_head (c : ascii) (r1 r2 : string) :
  String.compare (String c r1) (String c r2) = String.compare r1 r2.
Proof. cbn [String.compare]. now rewrite ascii_compare_refl. Qed.

Lemma digitChar_compare (d1 d2 : Z) :
  0 <= d1 <= 9 -> 0 <= d2 <= 9 ->
  Ascii.compare (digitChar d1) (digitChar d2) = (d1 ?= d2).
Proof.
  intros H1 H2. apply digit_cases in H1. apply digit_cases in H2.
  repeat (destruct H1 as [-> | H1]);
    repeat (destruct H2 as [-> | H2]); subst; reflexivity.
Qed.

(** Fields of equal width compare as the numbers they print. *)
Lemma compare_pad_general (w : nat) :
  forall (hi1 hi2 k1 k2 : Z) (r1 r2 : string),
    0 <= k1 < 10 ^ Z.of_nat w -> 0 <= k2 < 10 ^ Z.of_nat w ->
    String.compare (pad w (hi1 * 10 ^ Z.of_nat w + k1) ++ r1)
                   (pad w (hi2 * 10 ^ Z.of_nat w + k2) ++ r2)
    = match k1 ?= k2 with Eq => String.compare r1 r2 | c => c end.
Proof.
  induction w as [|w IH]; intros hi1 hi2 k1 k2 r1 r2 H1 H2.
  - cbn in H1, H2. assert (k1 = 0) by lia. assert (k2 = 0) by lia. subst.
    reflexivity.
  - rewrite Nat2Z.inj_succ, Z.pow_succ_r in * by lia.
    set (P := 10 ^ Z.of_nat w) in *.
    assert (HP : 0 < P) by (apply Z.pow_pos_nonneg; lia).
    cbn [pad append]. fold P.
    pose proof (Z.div_mod k1 P ltac:(lia)) as E1.
    pose proof (Z.div_mod k2 P ltac:(lia)) as E2.
    pose proof (Z.mod_pos_bound k1 P HP) as B1.
    pose proof (Z.mod_pos_bound k2 P HP) as B2.
    set (d1 := k1 / P) in *. set (d2 := k2 / P) in *.
    set (m1 := k1 mod P) in *. set (m2 := k2 mod P) in *.
    assert (Hd1 : 0 <= d1 <= 9) by nia.
    assert (Hd2 : 0 <= d2 <= 9) by nia.
    replace (hi1 * (10 * P) + k1) with ((hi1 * 10 + d1) * P + m1) by lia.
    replace (hi2 * (10 * P) + k2) with ((hi2 * 10 + d2) * P + m2) by lia.
    rewrite !Z.div_add_l by lia.
    rewrite (Z.div_small m1 P), (Z.div_small m2 P) by lia.
    replace ((hi1 * 10 + d1 + 0) mod 10) with d1
      by (Z.div_mod_to_equations; lia).
    replace ((hi2 * 10 + d2 + 0) mod 10) with d2
      by (Z.div_mod_to_equations; lia).
    cbn [String.compare]. rewrite digitChar_compare by assumption.
    rewrite IH by assumption.
    destruct (Z.compare_spec d1 d2), (Z.compare_spec m1 m2),
      (Z.compare_spec k1 k2); try reflexivity; nia.
Qed.

Lemma compare_pad (w : nat) (k1 k2 : Z) (r1 r2 : string) :
  0 <= k1 < 10 ^ Z.of_nat w -> 0 <= k2 < 10 ^ Z.of_nat w ->
  String.compare (pad w k1 ++ r1) (pad w k2 ++ r2)
  = match k1 ?= k2 with Eq => String.compare r1 r2 | c => c end.
Proof.
  intros H1 H2.
  pose proof (compare_pad_general w 0 0 k1 k2 r1 r2 H1 H2) as H.
  now rewrite !Z.mul_0_l, !Z.add_0_l in H.
Qed.

Lemma lexZ_lt (a b : Z) (l : list (Z * Z)) :
  a < b -> lexZ ((a, b) :: l) = Lt.
Proof. intros H. cbn [lexZ]. now rewrite (proj2 (Z.compare_lt_iff a b) H). Qed.

Lemma lexZ_eq (a : Z) (l : list (Z * Z)) : lexZ ((a, a) :: l) = lexZ l.
Proof. cbn [lexZ]. now rewrite Z.compare_refl. Qed.

Lemma DateFromTime_le_31 (t : Z) : 1 <= DateFromTime t <= 31.
Proof.
  destruct (DateFromTime_spec t) as [_ H].
  pose proof (MonthFromTime_range t) as Hm.
  assert (Hl : InLeapYear t <= 1)
    by (destruct (InLeapYear_cases t) as [[-> _] | [-> _]]; lia).
  pose proof (daysInMonth_le _ _ Hm Hl). lia.
Qed.

(** With four-digit years, canonical strings compare as their fields. *)
Lemma canonical_compare (t1 t2 : Z) :
  0 <= YearFromTime t1 <= 9999 -> 0 <= YearFromTime t2 <= 9999 ->
  String.compare (canonical t1) (canonical t2) = lexZ (fieldPairs t1 t2).
Proof.
  intros Hy1 Hy2. rewrite !canonical_fields. unfold yearString.
  replace ((0 <=? YearFromTime t1) && (YearFromTime t1 <=? 9999)) with true
    by (symmetry; apply andb_true_iff; split; apply Z.leb_le; lia).
  replace ((0 <=? YearFromTime t2) && (YearFromTime t2 <=? 9999)) with true
    by (symmetry; apply andb_true_iff; split; apply Z.leb_le; lia).
  pose proof (MonthFromTime_range t1). pose proof (MonthFromTime_range t2).
  pose proof (DateFromTime_le_31 t1). pose proof (DateFromTime_le_31 t2).
  destruct (time_fields_range t1) as (? & ? & ? & ?).
  destruct (time_fields_range t2) as (? & ? & ? & ?).
  unfold fieldPairs. cbn [lexZ].
  repeat (rewrite compare_pad by (cbn; lia); rewrite compare_head).
  reflexivity.
Qed.

(** The calendar date is determined by the day. *)
Lemma date_of_day (t1 t2 : Z) :
  Day t1 = Day t2 ->
  YearFromTime t1 = YearFromTime t2 /\ MonthFromTime t1 = MonthFromTime t2
  /\ DateFromTime t1 = DateFromTime t2.
Proof.
  intros HD.
  assert (HY : YearFromTime t1 = YearFromTime t2).
  { apply CalendarFacts.YearFromTime_unique. rewrite HD.
    apply YearFromTime_spec. }
  assert (HW : DayWithinYear t1 = DayWithinYear t2)
    by (unfold DayWithinYear; now rewrite HD, HY).
  assert (HL : InLeapYear t1 = InLeapYear t2)
    by (unfold InLeapYear; now rewrite HY).
  assert (HM : MonthFromTime t1 = MonthFromTime t2)
    by (unfold MonthFromTime; now rewrite HW, HL).
  split; [exact HY|]. split; [exact HM|].
  unfold DateFromTime. now rewrite HM, HW, HL.
Qed.

(** Within a year, a later day is in a later month, or later in the same
    month. *)
Lemma month_date_lex (l m1 m2 w1 w2 D1 D2 : Z) :
  l = 0 \/ l = 1 -> 0 <= m1 <= 11 -> 0 <= m2 <= 11 -> w1 < w2 ->
  D1 = w1 - daysBeforeMonth m1 l + 1 -> D2 = w2 - daysBeforeMonth m2 l + 1 ->
  1 <= D1 <= daysInMonth m1 l -> 1 <= D2 <= daysInMonth m2 l ->
  m1 < m2 \/ (m1 = m2 /\ D1 < D2).
Proof.
  intros Hl M1 M2 HW E1 E2 B1 B2.
  apply CalendarFacts.month_cases in M1.
  apply CalendarFacts.month_cases in M2.
  repeat (destruct M1 as [M1 | M1]);
    repeat (destruct M2 as [M2 | M2]);
    subst m1 m2; cbn [daysBeforeMonth daysInMonth] in *; lia.
Qed.

(** A later day has a later calendar date. *)
Lemma date_lex (t1 t2 : Z) :
  Day t1 < Day t2 ->
  YearFromTime t1 < YearFromTime t2
  \/ (YearFromTime t1 = YearFromTime t2
      /\ (MonthFromTime t1 < MonthFromTime t2
          \/ (MonthFromTime t1 = MonthFromTime t2
              /\ DateFromTime t1 < DateFromTime t2))).
Proof.
  intros HD.
  pose proof (YearFromTime_spec t1) as S1.
  pose proof (YearFromTime_spec t2) as S2.
  destruct (Z.lt_trichotomy (YearFromTime t1) (YearFromTime t2))
    as [Hlt | [Heq | Hgt]]; [now left | right | exfalso].
  - split; [exact Heq|].
    assert (HL : InLeapYear t1 = InLeapYear t2)
      by (unfold InLeapYear; now rewrite Heq).
    assert (HW : DayWithinYear t1 < DayWithinYear t2)
      by (unfold DayWithinYear; rewrite Heq; lia).
    destruct (DateFromTime_spec t1) as [E1 B1].
    destruct (DateFromTime_spec t2) as [E2 B2].
    rewrite HL in E1, B1.
    assert (Hl : InLeapYear t2 = 0 \/ InLeapYear t2 = 1)
      by (destruct (InLeapYear_cases t2); tauto).
    exact (month_date_lex _ _ _ _ _ _ _ Hl (MonthFromTime_range t1)
             (MonthFromTime_range t2) HW E1 E2 B1 B2).
  - pose proof (DayFromYear_mono (YearFromTime t2 + 1) (YearFromTime t1)).
    lia.
Qed.

(** Within a day, a later instant has a later time of day. *)
Lemma time_lex (t1 t2 : Z) :
  Day t1 = Day t2 -> t1 < t2 ->
  lexZ [(HourFromTime t1, HourFromTime t2);
        (MinFromTime t1, MinFromTime t2);
        (SecFromTime t1, SecFromTime t2);
        (msFromTime t1, msFromTime t2)] = Lt.
Proof.
  intros HD Hlt.
  assert (H : HourFromTime t1 < HourFromTime t2
              \/ (HourFromTime t1 = HourFromTime t2
                  /\ (MinFromTime t1 < MinFromTime t2
                      \/ (MinFromTime t1 = MinFromTime t2
                          /\ (SecFromTime t1 < SecFromTime t2
                              \/ (SecFromTime t1 = SecFromTime t2
                                  /\ msFromTime t1 < msFromTime t2)))))).
  { unfold Day, HourFromTime, MinFromTime, SecFromTime, msFromTime,
      msPerHour, msPerMinute, msPerSecond, msPerDay in *.
    Z.div_mod_to_equations. lia. }
  destruct H as [H | [-> [H | [-> [H | [-> H]]]]]];
    rewrite ?lexZ_eq; now apply lexZ_lt.
Qed.

(** An earlier instant has the smaller fields. *)
Lemma fieldPairs_lt (t1 t2 : Z) : t1 < t2 -> lexZ (fieldPairs t1 t2) = Lt.
Proof.
  intros Hlt. unfold fieldPairs.
  assert (HD : Day t1 <= Day t2)
    by (unfold Day, msPerDay; Z.div_mod_to_equations; lia).
  destruct (Z.eq_dec (Day t1) (Day t2)) as [E | E].
  - destruct (date_of_day t1 t2 E) as (-> & -> & ->).
    rewrite !lexZ_eq. now apply time_lex.
  - destruct (date_lex t1 t2 ltac:(lia)) as [H | [-> [H | [-> H]]]];
      rewrite ?lexZ_eq; apply lexZ_lt; lia.
Qed.

Lemma compare_refl (s : string) : String.compare s s = Eq.
Proof.
  induction s as [|c s IH]; [reflexivity|]. now rewrite compare_head.
Qed.

(** Canonical strings with four-digit years are ordered as their
    instants. *)
Lemma canonical_order (t1 t2 : Z) :
  0 <= YearFromTime t1 <= 9999 -> 0 <= YearFromTime t2 <= 9999 ->
  String.compare (canonical t1) (canonical t2) = (t1 ?= t2).
Proof.
  intros H1 H2. destruct (Z.compare_spec t1 t2) as [-> | Hlt | Hgt].
  - apply compare_refl.
  - rewrite canonical_compare by assumption. now apply fieldPairs_lt.
  - rewrite String.compare_antisym, canonical_compare by assumption.
    now rewrite fieldPairs_lt.
Qed.

End OrderFacts.

Import OrderFacts.

(** X11: canonical strings sort chronologically: for two dates whose time
    values lie between [-62167219200000] (0000-01-01T00:00:00.000Z) and
    [253402300799999] (9999-12-31T23:59:59.999Z), the strings
    [dateToRFC3339] gives compare, character by character, as the time
    values do. *)
Theorem dateToRFC3339_order (d1 d2 : Date) (t1 t2 : Z) (r1 r2 : string) :
  getTime d1 = Ms t1 -> getTime d2 = Ms t2 ->
  -62167219200000 <= t1 <= 253402300799999 ->
  -62167219200000 <= t2 <= 253402300799999 ->
  dateToRFC3339 d1 = Effect.succeed r1 ->
  dateToRFC3339 d2 = Effect.succeed r2 ->
  String.compare r1 r2 = (t1 ?= t2).
Proof.
  intros G1 G2 B1 B2.
  destruct d1 as [v1], d2 as [v2]. cbn [getTime] in G1, G2. subst v1 v2.
  rewrite !dateToRFC3339_valid. intros E1 E2.
  injection E1 as <-. injection E2 as <-.
  apply canonical_order; now apply four_digit_years.
Qed.

Lemma dateToRFC3339_order_witness :
  String.compare "1999-12-31 23:59:59.999Z" "2000-01-01 00:00:00.000Z"
  = (946684799999 ?= 946684800000).
Proof.
  apply (dateToRFC3339_order (mkDate (Ms 946684799999))
           (mkDate (Ms 946684800000)) 946684799999 946684800000);
    try reflexivity; try lia; vm_compute; reflexivity.
Defined.
